(** * PubNub provisioning scripts: a shallow embedding

    The repository holds three Python scripts:

    - [create_pubnub_resources.py] : create an app, create a keyset under it,
      write the two keys to [.env];
    - [setup-pubnub.py] : the same pipeline against another schema of the
      remote API, writing to an absolute path;
    - [test-api-endpoints.py] : a diagnostic loop probing five endpoints.

    The scripts are straight-line effectful code: they print, issue HTTP
    requests, raise and catch exceptions, call [sys.exit] and write one file.
    They are embedded as computations of a state-and-exception monad [py]
    over a [world] holding the remote platform (a function giving the reply
    to each request), the disk, and the logs of what was sent, opened and
    printed.

    Conventions.  A Python [str] is a [string] whose elements stand for its
    characters.  Python's [None] is [VNone]; a [float] is kept only through
    what the scripts can observe of it, its truth value and its [str()]. *)

From Stdlib Require Import Ascii.
From stdpp Require Import gmap strings list fin_maps pretty.

Open Scope Z_scope.
#[local] Set Warnings "-register-all".

(** ** Python values *)

(** The objects that [response.json()] can return and that the scripts put
    in request bodies.  A [dict] keeps its items in insertion order. *)
Inductive value : Type :=
| VNone
| VBool (b : bool)
| VInt (n : Z)
| VFloat (zero : bool) (shown : string)
| VStr (s : string)
| VList (items : list value)
| VDict (fields : list (string * value)).

(** [bool(v)], the test behind [if v], [not v] and [a and b]. *)
Definition truthy (v : value) : bool :=
  match v with
  | VNone => false
  | VBool b => b
  | VInt n => negb (n =? 0)
  | VFloat zero _ => negb zero
  | VStr s => negb (String.eqb s "")
  | VList items => match items with [] => false | _ => true end
  | VDict fields => match fields with [] => false | _ => true end
  end.

(** [type(v).__name__], as it appears in an [AttributeError]. *)
Definition type_name (v : value) : string :=
  match v with
  | VNone => "NoneType"
  | VBool _ => "bool"
  | VInt _ => "int"
  | VFloat _ _ => "float"
  | VStr _ => "str"
  | VList _ => "list"
  | VDict _ => "dict"
  end.

(** Lookup in a [dict]: the entry of key [k], if any. *)
Fixpoint dict_lookup (k : string) (fields : list (string * value)) : option value :=
  match fields with
  | [] => None
  | (k', v) :: rest => if String.eqb k' k then Some v else dict_lookup k rest
  end.

(** [d.get(k)] on a dict: the entry, or [None]. *)
Definition dict_get (k : string) (fields : list (string * value)) : value :=
  match dict_lookup k fields with
  | Some v => v
  | None => VNone
  end.

(** *** [repr] and [str] *)

Definition newline : string := String "010"%char EmptyString.
Definition squote : ascii := "039"%char.
Definition dquote : ascii := "034"%char.
Definition backslash : ascii := "092"%char.

Fixpoint occurs (c : ascii) (s : string) : bool :=
  match s with
  | EmptyString => false
  | String c' s' => Ascii.eqb c c' || occurs c s'
  end.

Definition hex_digit (n : N) : ascii :=
  if (n <? 10)%N then ascii_of_N (48 + n) else ascii_of_N (87 + n).

Definition hex_escape (c : ascii) : string :=
  let n := N_of_ascii c in
  String backslash (String "x" (String (hex_digit (n / 16)) (String (hex_digit (n mod 16)) EmptyString))).

(** Characters that [repr] of a [str] writes as [\xhh]: the control
    characters, and above ASCII those that are not printable. *)
Definition unprintable (c : ascii) : bool :=
  let n := N_of_ascii c in
  ((n <? 32) || (n =? 127) || ((128 <=? n) && (n <=? 160)) || (n =? 173))%N.

Definition repr_char (quote c : ascii) : string :=
  if Ascii.eqb c quote || Ascii.eqb c backslash then String backslash (String c EmptyString)
  else if Ascii.eqb c "009" then String backslash "t"
  else if Ascii.eqb c "010" then String backslash "n"
  else if Ascii.eqb c "013" then String backslash "r"
  else if unprintable c then hex_escape c
  else String c EmptyString.

Fixpoint repr_chars (quote : ascii) (s : string) : string :=
  match s with
  | EmptyString => EmptyString
  | String c s' => repr_char quote c +:+ repr_chars quote s'
  end.

(** [repr] of a [str]: single quotes, unless the text has a single quote
    and no double quote. *)
Definition repr_str (s : string) : string :=
  let quote := if occurs squote s && negb (occurs dquote s) then dquote else squote in
  String quote (repr_chars quote s +:+ String quote EmptyString).

(** [", ".join(parts)] *)
Fixpoint join_comma (parts : list string) : string :=
  match parts with
  | [] => ""
  | [p] => p
  | p :: rest => p +:+ ", " +:+ join_comma rest
  end.

Fixpoint py_repr (v : value) : string :=
  match v with
  | VNone => "None"
  | VBool true => "True"
  | VBool false => "False"
  | VInt n => pretty n
  | VFloat _ shown => shown
  | VStr s => repr_str s
  | VList items => "[" +:+ join_comma (map py_repr items) +:+ "]"
  | VDict fields =>
      "{" +:+ join_comma (map (fun kv => repr_str (fst kv) +:+ ": " +:+ py_repr (snd kv)) fields) +:+ "}"
  end.

(** [str(v)], which is what an f-string field [{v}] inserts. *)
Definition py_str (v : value) : string :=
  match v with
  | VStr s => s
  | _ => py_repr v
  end.

(** [s * n] on a [str]. *)
Fixpoint str_mul (s : string) (n : nat) : string :=
  match n with
  | O => ""
  | S n' => s +:+ str_mul s n'
  end.

(** [s[:n]] *)
Definition str_prefix (n : nat) (s : string) : string := String.substring 0 n s.

(** ** HTTP requests and responses *)

Inductive http_method : Type := GET | POST.

(** What a call of [requests.get] or [requests.post] hands to the HTTP
    library: [payload] is the [json=] argument, [timeout] the [timeout=]
    argument (in seconds), [None] where the call gives none. *)
Record request : Type := {
  method : http_method;
  url : string;
  req_headers : list (string * string);
  payload : option value;
  timeout : option Z
}.

(** The result of [response.json()]: the decoded body, or the message of
    the decoding error. *)
Inductive decoded : Type :=
| Undecodable (msg : string)
| Decoded (v : value).

Record response : Type := {
  status_code : Z;
  text : string;
  json : decoded
}.

(** A call either returns a response or raises a transport exception
    (connection refused, timeout, DNS failure) of class [cls]. *)
Inductive reply : Type :=
| Fault (cls msg : string)
| Reply (r : response).

(** ** Exceptions *)

(** [SystemExit] is not a subclass of [Exception]; every other exception the
    scripts can meet is. *)
Inductive exn : Type :=
| SystemExit (code : Z)
| Exception (cls msg : string).

Inductive outcome (A : Type) : Type :=
| Return (a : A)
| Raise (e : exn).
Arguments Return {A} a.
Arguments Raise {A} e.

(** ** The world *)

Record world : Type := {
  (** the remote platform: the reply to a request, given the requests
      issued before it *)
  net : list request -> request -> reply;
  (** [open(path, 'w')] fails with this [OSError] message *)
  deny : string -> option string;
  (** the requests issued so far, oldest first *)
  sent : list request;
  (** the files on disk, by path *)
  disk : gmap string string;
  (** the paths opened for writing so far *)
  opened : list string;
  (** what [print] wrote, one entry per call *)
  stdout : list string;
  (** the exceptions whose traceback was printed *)
  traces : list exn
}.

Definition with_sent (l : list request) (w : world) : world :=
  {| net := net w; deny := deny w; sent := l; disk := disk w;
     opened := opened w; stdout := stdout w; traces := traces w |}.

Definition with_disk (d : gmap string string) (w : world) : world :=
  {| net := net w; deny := deny w; sent := sent w; disk := d;
     opened := opened w; stdout := stdout w; traces := traces w |}.

Definition with_opened (l : list string) (w : world) : world :=
  {| net := net w; deny := deny w; sent := sent w; disk := disk w;
     opened := l; stdout := stdout w; traces := traces w |}.

Definition with_stdout (l : list string) (w : world) : world :=
  {| net := net w; deny := deny w; sent := sent w; disk := disk w;
     opened := opened w; stdout := l; traces := traces w |}.

Definition with_traces (l : list exn) (w : world) : world :=
  {| net := net w; deny := deny w; sent := sent w; disk := disk w;
     opened := opened w; stdout := stdout w; traces := l |}.

(** ** The monad of script code *)

Definition py (A : Type) : Type := world -> outcome A * world.

Definition ret {A : Type} (a : A) : py A := fun w => (Return a, w).

Definition bind {A B : Type} (c : py A) (k : A -> py B) : py B :=
  fun w =>
    match c w with
    | (Return a, w') => k a w'
    | (Raise e, w') => (Raise e, w')
    end.

Definition raise {A : Type} (e : exn) : py A := fun w => (Raise e, w).

Declare Scope py_scope.
Delimit Scope py_scope with py.
Bind Scope py_scope with py.
Notation "'let!' x ':=' c 'in' k" := (bind c (fun x => k))
  (at level 10, x name, c at level 100, k at level 200) : py_scope.
Notation "c ';;;' k" := (bind c (fun _ => k))
  (at level 100, k at level 200, right associativity) : py_scope.
Open Scope py_scope.

(** [try: c  except Exception as e: h e] *)
Definition try_except {A : Type} (c : py A) (h : string -> string -> py A) : py A :=
  fun w =>
    match c w with
    | (Raise (Exception cls msg), w') => h cls msg w'
    | r => r
    end.

(** *** Primitive operations *)

Definition print (s : string) : py unit :=
  fun w => (Return tt, with_stdout (stdout w ++ [s]) w).

Definition sys_exit {A : Type} (code : Z) : py A := raise (SystemExit code).

Definition traceback_print_exc (e : exn) : py unit :=
  fun w => (Return tt, with_traces (traces w ++ [e]) w).

(** Issue a request: it is logged, and the platform's reply decides
    between a response and a transport exception. *)
Definition issue (r : request) : py response :=
  fun w =>
    let w' := with_sent (sent w ++ [r]) w in
    match net w (sent w) r with
    | Reply resp => (Return resp, w')
    | Fault cls msg => (Raise (Exception cls msg), w')
    end.

(** [requests.post(url, headers=headers, json=data)] *)
Definition requests_post (u : string) (headers : list (string * string))
    (data : option value) (tmo : option Z) : py response :=
  issue {| method := POST; url := u; req_headers := headers; payload := data; timeout := tmo |}.

(** [requests.get(url, headers=headers, timeout=t)] *)
Definition requests_get (u : string) (headers : list (string * string))
    (tmo : option Z) : py response :=
  issue {| method := GET; url := u; req_headers := headers; payload := None; timeout := tmo |}.

(** What [response.json()] gives or raises. *)
Definition decode (r : response) : outcome value :=
  match json r with
  | Decoded v => Return v
  | Undecodable msg => Raise (Exception "JSONDecodeError" msg)
  end.

(** What [v.get(k)] gives or raises: only a dict has the method. *)
Definition attr_get (v : value) (k : string) : outcome value :=
  match v with
  | VDict fields => Return (dict_get k fields)
  | _ => Raise (Exception "AttributeError"
                  ("'" +:+ type_name v +:+ "' object has no attribute 'get'"))
  end.

(** An operation that touches nothing of the world. *)
Definition lift {A : Type} (o : outcome A) : py A := fun w => (o, w).

(** [response.json()] *)
Definition response_json (r : response) : py value := lift (decode r).

(** [v.get(k)] *)
Definition get (v : value) (k : string) : py value := lift (attr_get v k).

(** [with open(path, 'w') as f: f.write(content)]: opening truncates the
    file (or creates it), writing fills it; a refused [open] raises and
    leaves the disk as it is. *)
Definition open_w (path : string) : py unit :=
  fun w =>
    match deny w path with
    | Some msg => (Raise (Exception "OSError" msg), w)
    | None => (Return tt, with_opened (opened w ++ [path]) (with_disk (<[path := ""]> (disk w)) w))
    end.

Definition f_write (path content : string) : py unit :=
  fun w =>
    let old := match disk w !! path with Some s => s | None => "" end in
    (Return tt, with_disk (<[path := old +:+ content]> (disk w)) w).

Definition write_file (path content : string) : py unit :=
  open_w path ;;; f_write path content.

(** *** Running a script as a process *)

(** The interpreter's exit status: 0 when the module body returns, the
    code of an uncaught [SystemExit], and for any other uncaught exception
    a traceback and status 1. *)
Definition run_script (body : py unit) (w : world) : Z * world :=
  match body w with
  | (Return _, w') => (0, w')
  | (Raise (SystemExit code), w') => (code, w')
  | (Raise (Exception cls msg), w') => (1, with_traces (traces w' ++ [Exception cls msg]) w')
  end.

(** ** Constants shared by the three scripts *)

Definition API_KEY : string := "si_0OXCgHBk0K7Z.Ncv1IY0F+K7dBZWyyym/DNRKLNTgopaGWB0OsulHJsr6".
Definition BASE_URL : string := "https://ps.pndsn.com/v2".

(** The [headers] dict, built alike in every script. *)
Definition auth_headers : list (string * string) :=
  [("Authorization", "Bearer " +:+ API_KEY); ("Content-Type", "application/json")].

(** [response.status_code in [200, 201]] *)
Definition status_ok (r : response) : bool :=
  (status_code r =? 200) || (status_code r =? 201).

(** ** create_pubnub_resources.py *)

Module CreateResources.

Definition create_app (name : string) : py value :=
  print ("Creating app: " +:+ name +:+ "...") ;;;
  let headers := auth_headers in
  let data := VDict [("name", VStr name)] in
  let! response := requests_post (BASE_URL +:+ "/apps") headers (Some data) None in
  print ("Status: " +:+ pretty (status_code response)) ;;;
  print ("Response: " +:+ text response) ;;;
  if status_ok response then
    let! app_data := response_json response in
    print "✅ App created successfully!" ;;;
    let! shown := get app_data "id" in
    print ("   App ID: " +:+ py_str shown) ;;;
    get app_data "id"
  else
    print "❌ Failed to create app" ;;;
    print ("   Error: " +:+ text response) ;;;
    ret VNone.

Definition keyset_config (name : string) : value :=
  VDict [
    ("name", VStr name);
    ("type", VStr "production");
    ("config", VDict [
      ("messagePersistence", VDict [
        ("enabled", VBool true);
        ("retention", VInt 7);
        ("deleteFromHistory", VBool true);
        ("includePresenceEvents", VBool false)]);
      ("appContext", VDict [
        ("enabled", VBool true);
        ("region", VStr "aws-iad-1");
        ("userMetadataEvents", VBool false);
        ("channelMetadataEvents", VBool false);
        ("membershipEvents", VBool false);
        ("disallowGetAllUserMetadata", VBool false);
        ("disallowGetAllChannelMetadata", VBool false);
        ("referentialIntegrity", VBool false)]);
      ("presence", VDict [("enabled", VBool false)]);
      ("files", VDict [("enabled", VBool false)])])].

Definition create_keyset (app_id : value) (name : string) : py value :=
  print (newline +:+ "Creating keyset: " +:+ name +:+ "...") ;;;
  let headers := auth_headers in
  let config := keyset_config name in
  let! response :=
    requests_post (BASE_URL +:+ "/apps/" +:+ py_str app_id +:+ "/keysets") headers (Some config) None in
  print ("Status: " +:+ pretty (status_code response)) ;;;
  print ("Response: " +:+ str_prefix 500 (text response) +:+ "...") ;;;
  if status_ok response then
    let! keyset_data := response_json response in
    print "✅ Keyset created successfully!" ;;;
    let! shown_id := get keyset_data "id" in
    print ("   Keyset ID: " +:+ py_str shown_id) ;;;
    let! shown_pub := get keyset_data "publishKey" in
    print ("   Publish Key: " +:+ py_str shown_pub) ;;;
    let! shown_sub := get keyset_data "subscribeKey" in
    print ("   Subscribe Key: " +:+ py_str shown_sub) ;;;
    ret keyset_data
  else
    print "❌ Failed to create keyset" ;;;
    print ("   Error: " +:+ text response) ;;;
    ret VNone.

Definition env_path : string := ".env".

Definition env_content (publish_key subscribe_key : value) : string :=
  "# PubNub Configuration for Swap It!" +:+ newline +:+
  "# Generated automatically" +:+ newline +:+
  newline +:+
  "VITE_PUBNUB_PUBLISH_KEY=" +:+ py_str publish_key +:+ newline +:+
  "VITE_PUBNUB_SUBSCRIBE_KEY=" +:+ py_str subscribe_key +:+ newline.

Definition create_env_file (publish_key subscribe_key : value) : py unit :=
  print (newline +:+ "Creating .env file...") ;;;
  write_file env_path (env_content publish_key subscribe_key) ;;;
  print "✅ .env file created!".

Definition main : py unit :=
  print (str_mul "=" 50) ;;;
  print "PubNub Resource Creation for Swap It!" ;;;
  print (str_mul "=" 50) ;;;
  print "" ;;;
  let! app_id := create_app "Swap It Game" in
  (if negb (truthy app_id) then
     print (newline +:+ "❌ Setup failed at app creation") ;;;
     sys_exit 1
   else ret tt) ;;;
  let! keyset_data := create_keyset app_id "Swap It Production" in
  (if negb (truthy keyset_data) then
     print (newline +:+ "❌ Setup failed at keyset creation") ;;;
     sys_exit 1
   else ret tt) ;;;
  let! publish_key := get keyset_data "publishKey" in
  let! subscribe_key := get keyset_data "subscribeKey" in
  (if truthy publish_key && truthy subscribe_key then
     create_env_file publish_key subscribe_key
   else
     print (newline +:+ "❌ Could not extract keys from response") ;;;
     sys_exit 1) ;;;
  print "" ;;;
  print (str_mul "=" 50) ;;;
  print "Setup Complete!" ;;;
  print (str_mul "=" 50) ;;;
  print "" ;;;
  print ("App ID: " +:+ py_str app_id) ;;;
  print ("Publish Key: " +:+ py_str publish_key) ;;;
  print ("Subscribe Key: " +:+ py_str subscribe_key) ;;;
  print "" ;;;
  print "Next steps:" ;;;
  print "1. Go to https://dashboard.pubnub.com" ;;;
  print "2. Navigate to Functions in your keyset" ;;;
  print "3. Deploy the function from server/before-publish-function.js" ;;;
  print "4. Initialize test game in KV Store" ;;;
  print "5. Run: npm run dev" ;;;
  print "".

(** The [if __name__ == "__main__":] block. *)
Definition script : py unit :=
  try_except main (fun cls msg =>
    print (newline +:+ "❌ Error: " +:+ msg) ;;;
    traceback_print_exc (Exception cls msg) ;;;
    sys_exit 1).

End CreateResources.

(** ** setup-pubnub.py *)

Module SetupPubnub.

(** The module-level [headers] dict; no code of the script assigns to it. *)
Definition headers : list (string * string) := auth_headers.

Definition create_app (name : string) : py value :=
  print ("Creating PubNub App: " +:+ name) ;;;
  let! response :=
    requests_post (BASE_URL +:+ "/apps") headers (Some (VDict [("name", VStr name)])) None in
  print ("Status Code: " +:+ pretty (status_code response)) ;;;
  print ("Response: " +:+ text response) ;;;
  if status_ok response then
    let! app_data := response_json response in
    print "✓ App created successfully!" ;;;
    let! shown := get app_data "id" in
    print ("App ID: " +:+ py_str shown) ;;;
    get app_data "id"
  else
    print "✗ Failed to create app" ;;;
    print ("Error: " +:+ text response) ;;;
    ret VNone.

Definition keyset_config (app_id : value) (name : string) : value :=
  VDict [
    ("app_id", app_id);
    ("name", VStr name);
    ("production", VBool false);
    ("features", VDict [
      ("message_persistence", VDict [
        ("enabled", VBool true);
        ("retention", VInt 7);
        ("delete_from_history", VBool true);
        ("include_presence_events", VBool false)]);
      ("presence", VDict [
        ("enabled", VBool true);
        ("announce_max", VInt 20);
        ("interval", VInt 10);
        ("deltas", VBool true);
        ("debounce", VInt 3);
        ("generate_leave_on_disconnect", VBool true);
        ("stream_filtering", VBool false)]);
      ("objects", VDict [
        ("enabled", VBool true);
        ("region", VStr "aws-iad-1");
        ("user_metadata_events", VBool true);
        ("channel_metadata_events", VBool true);
        ("membership_events", VBool true);
        ("referential_integrity", VBool false);
        ("disallow_get_all_user_metadata", VBool false);
        ("disallow_get_all_channel_metadata", VBool false)])])].

Definition create_keyset (app_id : value) (name : string) : py value :=
  print (newline +:+ "Creating keyset: " +:+ name) ;;;
  let keyset_config := keyset_config app_id name in
  let! response := requests_post (BASE_URL +:+ "/keys") headers (Some keyset_config) None in
  print ("Status Code: " +:+ pretty (status_code response)) ;;;
  print ("Response: " +:+ text response) ;;;
  if status_ok response then
    let! keyset_data := response_json response in
    print "✓ Keyset created successfully!" ;;;
    let! shown_pub := get keyset_data "publish_key" in
    print (newline +:+ "Publish Key: " +:+ py_str shown_pub) ;;;
    let! shown_sub := get keyset_data "subscribe_key" in
    print ("Subscribe Key: " +:+ py_str shown_sub) ;;;
    ret keyset_data
  else
    print "✗ Failed to create keyset" ;;;
    print ("Error: " +:+ text response) ;;;
    ret VNone.

Definition env_path : string := "/Users/craig/Documents/gits/swapit/client/.env".

Definition env_content (pub_key sub_key : value) : string :=
  "VITE_PUBNUB_PUBLISH_KEY=" +:+ py_str pub_key +:+ newline +:+
  "VITE_PUBNUB_SUBSCRIBE_KEY=" +:+ py_str sub_key +:+ newline.

Definition save_env_file (pub_key sub_key : value) : py unit :=
  write_file env_path (env_content pub_key sub_key) ;;;
  print (newline +:+ "✓ .env file created at client/.env") ;;;
  print (newline +:+ "Your PubNub keys are ready to use!") ;;;
  print (newline +:+ "Next steps:") ;;;
  print "1. Deploy the Before Publish Function from server/before-publish-function.js" ;;;
  print "2. Configure it to run on channel pattern: game.*" ;;;
  print "3. Enable KV Store for the Function" ;;;
  print "4. Test the game!".

Definition main : py unit :=
  let! app_id := create_app "Swap It Game" in
  (if negb (truthy app_id) then sys_exit 1 else ret tt) ;;;
  let! keyset_data := create_keyset app_id "Swap It Game Keys" in
  (if negb (truthy keyset_data) then sys_exit 1 else ret tt) ;;;
  let! pub_key := get keyset_data "publish_key" in
  let! sub_key := get keyset_data "subscribe_key" in
  save_env_file pub_key sub_key.

(** The [if __name__ == "__main__":] block: a bare call of [main]. *)
Definition script : py unit := main.

End SetupPubnub.

(** ** test-api-endpoints.py *)

Module TestApiEndpoints.

Definition headers : list (string * string) := auth_headers.

Definition endpoints : list (string * string * string) :=
  [("GET", "https://ps.pndsn.com/v2/apps", "List apps v2");
   ("GET", "https://admin.pubnub.com/api/v1/apps", "List apps v1");
   ("GET", "https://ps.pndsn.com/api/v2/apps", "List apps v2 alt");
   ("GET", "https://ps.pndsn.com/v2/keysets", "List keysets v2");
   ("GET", "https://ps.pndsn.com/v2/keys", "List keys v2")].

(** The body of the [for method, url, description in endpoints] loop. *)
Definition probe (method url description : string) : py unit :=
  print ("Testing: " +:+ description) ;;;
  print ("URL: " +:+ url) ;;;
  try_except
    (let! response :=
       if String.eqb method "GET" then requests_get url headers (Some 5)
       else requests_post url headers None (Some 5) in
     print ("Status: " +:+ pretty (status_code response)) ;;;
     print ("Response: " +:+ str_prefix 200 (text response)))
    (fun cls msg => print ("Error: " +:+ msg)) ;;;
  print (str_mul "-" 80) ;;;
  print "".

Fixpoint for_each (l : list (string * string * string)) : py unit :=
  match l with
  | [] => ret tt
  | (method, url, description) :: rest => probe method url description ;;; for_each rest
  end.

Definition script : py unit :=
  print ("Testing PubNub API endpoints..." +:+ newline) ;;;
  for_each endpoints.

End TestApiEndpoints.

(** ** The two pipelines side by side *)

(** [Resources] is create_pubnub_resources.py, [Setup] is setup-pubnub.py. *)
Inductive variant : Type := Resources | Setup.

Definition script_of (v : variant) : py unit :=
  match v with
  | Resources => CreateResources.script
  | Setup => SetupPubnub.script
  end.

Definition main_of (v : variant) : py unit :=
  match v with
  | Resources => CreateResources.main
  | Setup => SetupPubnub.main
  end.

Definition create_app_of (v : variant) : string -> py value :=
  match v with
  | Resources => CreateResources.create_app
  | Setup => SetupPubnub.create_app
  end.

Definition create_keyset_of (v : variant) : value -> string -> py value :=
  match v with
  | Resources => CreateResources.create_keyset
  | Setup => SetupPubnub.create_keyset
  end.

(** The display name [main] gives to the keyset. *)
Definition keyset_name (v : variant) : string :=
  match v with
  | Resources => "Swap It Production"
  | Setup => "Swap It Game Keys"
  end.

(** Stage 3: [create_env_file] in one script, [save_env_file] in the other. *)
Definition persist_of (v : variant) : value -> value -> py unit :=
  match v with
  | Resources => CreateResources.create_env_file
  | Setup => SetupPubnub.save_env_file
  end.

(** The request that [create_app name] hands to [requests.post], the same
    in both scripts. *)
Definition app_request_for (name : string) : request :=
  {| method := POST;
     url := BASE_URL +:+ "/apps";
     req_headers := auth_headers;
     payload := Some (VDict [("name", VStr name)]);
     timeout := None |}.

(** The one [main] issues. *)
Definition app_request : request := app_request_for "Swap It Game".

(** The request that [create_keyset app_id] hands to [requests.post] when
    called from [main]. *)
Definition keyset_request (v : variant) (app_id : value) : request :=
  match v with
  | Resources =>
      {| method := POST;
         url := BASE_URL +:+ "/apps/" +:+ py_str app_id +:+ "/keysets";
         req_headers := auth_headers;
         payload := Some (CreateResources.keyset_config (keyset_name Resources));
         timeout := None |}
  | Setup =>
      {| method := POST;
         url := BASE_URL +:+ "/keys";
         req_headers := auth_headers;
         payload := Some (SetupPubnub.keyset_config app_id (keyset_name Setup));
         timeout := None |}
  end.

(** The names of the two credential fields in the keyset response. *)
Definition publish_field (v : variant) : string :=
  match v with Resources => "publishKey" | Setup => "publish_key" end.

Definition subscribe_field (v : variant) : string :=
  match v with Resources => "subscribeKey" | Setup => "subscribe_key" end.

Definition env_path_of (v : variant) : string :=
  match v with Resources => CreateResources.env_path | Setup => SetupPubnub.env_path end.

Definition env_content_of (v : variant) : value -> value -> string :=
  match v with Resources => CreateResources.env_content | Setup => SetupPubnub.env_content end.

(** ** Reading a response *)

(** The field [k] of the response body: present when the body decodes to
    a JSON object that has an entry [k]. *)
Definition body_field (k : string) (r : response) : option value :=
  match json r with
  | Decoded (VDict fields) => dict_lookup k fields
  | _ => None
  end.

(** The lines of a text file: the pieces between line feeds, a final line
    feed ending the last line. *)
Fixpoint file_lines_from (line : string) (s : string) : list string :=
  match s with
  | EmptyString => match line with EmptyString => [] | _ => [line] end
  | String c s' =>
      if Ascii.eqb c "010" then line :: file_lines_from "" s'
      else file_lines_from (line +:+ String c EmptyString) s'
  end.

Definition file_lines (s : string) : list string := file_lines_from "" s.

(** The two [KEY=value] lines for credentials [p] and [s]. *)
Definition publish_line (p : string) : string := "VITE_PUBNUB_PUBLISH_KEY=" +:+ p.
Definition subscribe_line (s : string) : string := "VITE_PUBNUB_SUBSCRIBE_KEY=" +:+ s.

(** Two worlds that differ at most in what has been printed to standard
    output. *)
Definition same_but_stdout (w1 w2 : world) : Prop :=
  net w1 = net w2 /\ deny w1 = deny w2 /\ sent w1 = sent w2 /\
  disk w1 = disk w2 /\ opened w1 = opened w2 /\ traces w1 = traces w2.

(** A computation that never reads standard output back: run from two
    such worlds, it ends alike in two such worlds. *)
Definition stdout_blind {A : Type} (c : py A) : Prop :=
  forall w1 w2, same_but_stdout w1 w2 ->
    fst (c w1) = fst (c w2) /\ same_but_stdout (snd (c w1)) (snd (c w2)).

(** The request the probing loop issues for an entry of [endpoints] whose
    method is ["GET"]. *)
Definition probe_request (e : string * string * string) : request :=
  {| method := GET;
     url := snd (fst e);
     req_headers := TestApiEndpoints.headers;
     payload := None;
     timeout := Some 5 |}.

(** ** What the stages yield *)

(** What [create_app] returns or raises, from the platform's reply. *)
Definition app_result (rep : reply) : outcome value :=
  match rep with
  | Fault cls msg => Raise (Exception cls msg)
  | Reply r =>
      if status_ok r then
        match decode r with
        | Return app_data => attr_get app_data "id"
        | Raise e => Raise e
        end
      else Return VNone
  end.

(** What [create_keyset] returns or raises, from the platform's reply. *)
Definition keyset_result (rep : reply) : outcome value :=
  match rep with
  | Fault cls msg => Raise (Exception cls msg)
  | Reply r =>
      if status_ok r then
        match decode r with
        | Return keyset_data =>
            match attr_get keyset_data "id" with
            | Return _ => Return keyset_data
            | Raise e => Raise e
            end
        | Raise e => Raise e
        end
      else Return VNone
  end.

(** The application identifier stage 1 hands to stage 2: what [create_app]
    returns, when [main] finds it non-empty. *)
Definition stage1_id (rep : reply) : option value :=
  match app_result rep with
  | Return id => if truthy id then Some id else None
  | Raise _ => None
  end.

(** The keyset record stage 2 hands to stage 3: what [create_keyset]
    returns, when [main] finds it non-empty. *)
Definition stage2_record (rep : reply) : option value :=
  match keyset_result rep with
  | Return keyset_data => if truthy keyset_data then Some keyset_data else None
  | Raise _ => None
  end.

(** The test [main] makes on the two keys before stage 3:
    [if publish_key and subscribe_key] in create_pubnub_resources.py, none
    in setup-pubnub.py. *)
Definition keys_accepted (v : variant) (publish_key subscribe_key : value) : bool :=
  match v with
  | Resources => truthy publish_key && truthy subscribe_key
  | Setup => true
  end.

(** ** What a run leaves behind *)

(** What can be seen of a finished run, its printed text apart. *)
Record observed : Type := {
  exit_code : Z;
  requests : list request;
  files : gmap string string;
  opens : list string;
  tracebacks : list exn
}.

Definition observe (v : variant) (w : world) : observed :=
  let run := run_script (script_of v) w in
  {| exit_code := fst run; requests := sent (snd run); files := disk (snd run);
     opens := opened (snd run); tracebacks := traces (snd run) |}.

(** A run that stops on exception [e] after issuing [reqs]: nothing is
    written; a [SystemExit] gives its code, any other exception a traceback
    and status 1. *)
Definition stopped (e : exn) (reqs : list request) (w : world) : observed :=
  match e with
  | SystemExit code =>
      {| exit_code := code; requests := reqs; files := disk w; opens := opened w;
         tracebacks := traces w |}
  | Exception _ _ =>
      {| exit_code := 1; requests := reqs; files := disk w; opens := opened w;
         tracebacks := traces w ++ [e] |}
  end.

(** The run of a pipeline read off the two replies and the disk, stage by
    stage; [pipeline_observed] below proves that the scripts do this. *)
Definition expected (v : variant) (w : world) : observed :=
  let reqs1 := sent w ++ [app_request] in
  match app_result (net w (sent w) app_request) with
  | Raise e => stopped e reqs1 w
  | Return app_id =>
      if negb (truthy app_id) then stopped (SystemExit 1) reqs1 w
      else
        let reqs2 := sent w ++ [app_request; keyset_request v app_id] in
        match keyset_result (net w reqs1 (keyset_request v app_id)) with
        | Raise e => stopped e reqs2 w
        | Return keyset_data =>
            if negb (truthy keyset_data) then stopped (SystemExit 1) reqs2 w
            else
              match attr_get keyset_data (publish_field v),
                    attr_get keyset_data (subscribe_field v) with
              | Return publish_key, Return subscribe_key =>
                  if keys_accepted v publish_key subscribe_key then
                    match deny w (env_path_of v) with
                    | Some msg => stopped (Exception "OSError" msg) reqs2 w
                    | None =>
                        {| exit_code := 0; requests := reqs2;
                           files := <[env_path_of v :=
                                        env_content_of v publish_key subscribe_key]> (disk w);
                           opens := opened w ++ [env_path_of v];
                           tracebacks := traces w |}
                    end
                  else stopped (SystemExit 1) reqs2 w
              | Raise e, _ => stopped e reqs2 w
              | _, Raise e => stopped e reqs2 w
              end
        end
  end.

(** The comment lines and the empty line that create_pubnub_resources.py
    writes before the two keys; setup-pubnub.py writes none. *)
Definition env_header_lines (v : variant) : list string :=
  match v with
  | Resources => ["# PubNub Configuration for Swap It!"; "# Generated automatically"; ""]
  | Setup => []
  end.

(** The keyset request [req] is scoped to the application [app_id]: by the
    path of its URL in create_pubnub_resources.py, by the field [app_id] of
    its body in setup-pubnub.py. *)
Definition scoped_to (v : variant) (app_id : value) (req : request) : Prop :=
  match v with
  | Resources => url req = BASE_URL +:+ "/apps/" +:+ py_str app_id +:+ "/keysets"
  | Setup =>
      exists fields, payload req = Some (VDict fields) /\
                     dict_lookup "app_id" fields = Some app_id
  end.

(** The response carries a usable credential under [k]: the field is
    there and [if] finds it non-empty. *)
Definition has_credential (k : string) (r : response) : bool :=
  match body_field k r with
  | Some x => truthy x
  | None => false
  end.

(** ** Worlds to run the scripts in *)

Definition quoted (s : string) : string := String dquote (s +:+ String dquote EmptyString).

(** A response whose body [body] decodes to [v]. *)
Definition json_response (status : Z) (body : string) (v : value) : response :=
  {| status_code := status; text := body; json := Decoded v |}.

(** A platform that gives [first] to the first request and [second] to
    every later one. *)
Definition scenario (first second : reply) : list request -> request -> reply :=
  fun history _ => match history with [] => first | _ => second end.

(** A machine with an empty disk on which every path can be written, and
    nothing sent or printed yet. *)
Definition fresh_world (platform : list request -> request -> reply) : world :=
  {| net := platform; deny := fun _ => None; sent := []; disk := ∅;
     opened := []; stdout := []; traces := [] |}.

(** Status 201, an [id] of [app_123]. *)
Definition app_123_created : response :=
  json_response 201 ("{" +:+ quoted "id" +:+ ": " +:+ quoted "app_123" +:+ "}")
    (VDict [("id", VStr "app_123")]).

(** Status 201, an [id] that is the empty string: the field is there, and
    empty. *)
Definition app_with_empty_id : response :=
  json_response 201 ("{" +:+ quoted "id" +:+ ": " +:+ quoted "" +:+ "}")
    (VDict [("id", VStr "")]).

(** Status 200, an empty JSON object. *)
Definition app_without_id : response := json_response 200 "{}" (VDict []).

(** Status 401. *)
Definition unauthorized : response :=
  json_response 401 ("{" +:+ quoted "error" +:+ ": " +:+ quoted "Unauthorized" +:+ "}")
    (VDict [("error", VStr "Unauthorized")]).

(** Status 200 with the keys [pub_abc] and [sub_xyz], under the field
    names that [v] reads. *)
Definition keyset_created (v : variant) : response :=
  json_response 200
    ("{" +:+ quoted (publish_field v) +:+ ": " +:+ quoted "pub_abc" +:+ ", "
         +:+ quoted (subscribe_field v) +:+ ": " +:+ quoted "sub_xyz" +:+ "}")
    (VDict [(publish_field v, VStr "pub_abc"); (subscribe_field v, VStr "sub_xyz")]).

(** Status 200, a keyset record with an [id] and no keys. *)
Definition keyset_without_keys : response :=
  json_response 200 ("{" +:+ quoted "id" +:+ ": " +:+ quoted "ks_1" +:+ "}")
    (VDict [("id", VStr "ks_1")]).

(** Both stages answered as the platform should. *)
Definition world_success (v : variant) : world :=
  fresh_world (scenario (Reply app_123_created) (Reply (keyset_created v))).

(** The application is refused with 401. *)
Definition world_unauthorized : world :=
  fresh_world (scenario (Reply unauthorized) (Reply unauthorized)).

(** The application comes back with an empty [id]. *)
Definition world_empty_id : world :=
  fresh_world (scenario (Reply app_with_empty_id) (Reply keyset_without_keys)).

(** The application comes back without [id]. *)
Definition world_no_id : world :=
  fresh_world (scenario (Reply app_without_id) (Reply keyset_without_keys)).

(** The keyset comes back without keys. *)
Definition world_no_keys : world :=
  fresh_world (scenario (Reply app_123_created) (Reply keyset_without_keys)).

(** The application is created, the keyset is refused with 401. *)
Definition world_keyset_unauthorized : world :=
  fresh_world (scenario (Reply app_123_created) (Reply unauthorized)).

(** No connection to the platform. *)
Definition world_offline : world :=
  fresh_world (scenario (Fault "ConnectionError" "Connection refused")
                        (Fault "ConnectionError" "Connection refused")).

(** The connection is lost after the first request. *)
Definition world_cut_off : world :=
  fresh_world (scenario (Reply app_123_created) (Fault "ReadTimeout" "Read timed out")).

(** A machine that already holds a credentials file at the path [v]
    writes to, and one other file. *)
Definition world_with_old_env (v : variant) : world :=
  with_disk (<[env_path_of v := "VITE_PUBNUB_PUBLISH_KEY=old" +:+ newline]>
               (<["notes.txt" := "keep"]> ∅))
            (world_success v).

(** The request the probing loop issues for an entry of [endpoints]:
    [requests.get] when its method is the text [GET], [requests.post]
    otherwise. *)
Definition probe_issue (e : string * string * string) : request :=
  if String.eqb (fst (fst e)) "GET" then probe_request e
  else {| method := POST; url := snd (fst e); req_headers := TestApiEndpoints.headers;
          payload := None; timeout := Some 5 |}.

(** ** One run after another *)

(** The world a pipeline leaves behind when its process ends. *)
Definition after (v : variant) (w : world) : world :=
  snd (run_script (script_of v) w).

(** A computation that leaves the platform and the write permissions of
    the disk as they are. *)
Definition keeps_platform {A : Type} (c : py A) : Prop :=
  forall w, net (snd (c w)) = net w /\ deny (snd (c w)) = deny w.

(** The number of line feeds in a text. *)
Fixpoint count_lf (s : string) : nat :=
  match s with
  | EmptyString => O
  | String c s' => if Ascii.eqb c "010" then S (count_lf s') else count_lf s'
  end.

(** The machine of [world_success], with a disk that refuses every
    [open]. *)
Definition world_read_only (v : variant) : world :=
  {| net := net (world_success v);
     deny := fun _ => Some "[Errno 13] Permission denied";
     sent := []; disk := ∅; opened := []; stdout := []; traces := [] |}.

(** Status 200 with a body that is not JSON. *)
Definition html_page : response :=
  {| status_code := 200; text := "<html>Bad gateway</html>";
     json := Undecodable "Expecting value: line 1 column 1 (char 0)" |}.

(** Status 200 with a JSON body that is a list. *)
Definition json_list : response := json_response 200 "[]" (VList []).

(** Status 503 with a body that is not JSON. *)
Definition unavailable : response :=
  {| status_code := 503; text := "Service Unavailable";
     json := Undecodable "Expecting value: line 1 column 1 (char 0)" |}.

(** Status 200 with a publish key only. *)
Definition keyset_publish_only : response :=
  json_response 200 ("{" +:+ quoted "publishKey" +:+ ": " +:+ quoted "pub_abc" +:+ "}")
    (VDict [("publishKey", VStr "pub_abc")]).

(** Status 201, an [id] of [app_456]. *)
Definition app_456_created : response :=
  json_response 201 ("{" +:+ quoted "id" +:+ ": " +:+ quoted "app_456" +:+ "}")
    (VDict [("id", VStr "app_456")]).

(** A platform that creates an application at every request to [/apps],
    [app_123] the first time and [app_456] afterwards, and a keyset at
    every other request. *)
Definition platform_creating (v : variant) : list request -> request -> reply :=
  fun history r =>
    if String.eqb (url r) (BASE_URL +:+ "/apps") then
      match history with
      | [] => Reply app_123_created
      | _ => Reply app_456_created
      end
    else Reply (keyset_created v).

Definition world_creating (v : variant) : world := fresh_world (platform_creating v).

(** The lines with which [create_keyset] shows the two keys of the
    response. *)
Definition echoed_publish_key (v : variant) (fields : list (string * value)) : string :=
  match v with
  | Resources => "   Publish Key: " +:+ py_str (dict_get "publishKey" fields)
  | Setup => newline +:+ "Publish Key: " +:+ py_str (dict_get "publish_key" fields)
  end.

Definition echoed_subscribe_key (v : variant) (fields : list (string * value)) : string :=
  match v with
  | Resources => "   Subscribe Key: " +:+ py_str (dict_get "subscribeKey" fields)
  | Setup => "Subscribe Key: " +:+ py_str (dict_get "subscribe_key" fields)
  end.

(** A computation that only adds to standard output. *)
Definition grows {A : Type} (c : py A) : Prop :=
  forall w, exists out, stdout (snd (c w)) = stdout w ++ out.

(** * Properties *)

(** ** Writing a file *)

Lemma write_file_run (path content : string) (w : world) :
  write_file path content w =
  match deny w path with
  | Some msg => (Raise (Exception "OSError" msg), w)
  | None =>
      (Return tt, with_opened (opened w ++ [path]) (with_disk (<[path := content]> (disk w)) w))
  end.
Proof.
  destruct w as [n d s dk op so tr].
  cbv [write_file bind open_w f_write deny disk opened with_disk with_opened net sent stdout traces].
  destruct (d path) as [msg|]; [reflexivity|].
  rewrite lookup_insert_eq, insert_insert_eq. reflexivity.
Qed.

(** ** Stepping through script code *)

(** [py_eval] runs the code of a stage as far as the known part of the
    world allows; [py_case] goes on by cases on what the platform, the body
    or the disk may hold. *)
Ltac py_eval :=
  cbv [create_app_of create_keyset_of persist_of
       CreateResources.create_app CreateResources.create_keyset
       CreateResources.create_env_file
       SetupPubnub.create_app SetupPubnub.create_keyset
       SetupPubnub.save_env_file SetupPubnub.headers
       bind ret raise lift sys_exit try_except
       print traceback_print_exc issue requests_post requests_get
       response_json get decode attr_get app_result keyset_result
       net deny sent disk opened stdout traces
       with_sent with_disk with_opened with_stdout with_traces fst snd
       app_request_for keyset_request keyset_name
       env_path_of env_content_of].

Ltac py_case :=
  match goal with
  | |- context [write_file _ _ _] => rewrite write_file_run
  | |- context [match ?n ?h ?r with Fault _ _ => _ | Reply _ => _ end] =>
      is_var n; destruct (n h r)
  | |- context [if status_ok ?r then _ else _] => is_var r; destruct (status_ok r)
  | |- context [match json ?r with _ => _ end] => is_var r; destruct (json r)
  | |- context [match ?v with VNone => _ | _ => _ end] => is_var v; destruct v
  | |- context [match ?d ?p with Some _ => _ | None => _ end] =>
      is_var d; destruct (d p)
  end.

(** Follow every path of a stage. *)
Ltac py_cases := py_eval; repeat (py_case; py_eval).

(** ** The three stages, one by one *)

(** Each stage issues its one request and returns what [app_result] or
    [keyset_result] reads off the reply; the rest of the world is left as
    it was, standard output apart. *)
Lemma create_app_run (v : variant) (name : string) (w : world) :
  exists out,
    create_app_of v name w =
    (app_result (net w (sent w) (app_request_for name)),
     with_stdout out (with_sent (sent w ++ [app_request_for name]) w)).
Proof.
  destruct w, v; py_cases; eexists; reflexivity.
Qed.

Lemma create_keyset_run (v : variant) (app_id : value) (w : world) :
  exists out,
    create_keyset_of v app_id (keyset_name v) w =
    (keyset_result (net w (sent w) (keyset_request v app_id)),
     with_stdout out (with_sent (sent w ++ [keyset_request v app_id]) w)).
Proof.
  destruct w, v; py_cases; eexists; reflexivity.
Qed.

Lemma persist_run (v : variant) (publish_key subscribe_key : value) (w : world) :
  exists out,
    persist_of v publish_key subscribe_key w =
    match deny w (env_path_of v) with
    | Some msg => (Raise (Exception "OSError" msg), with_stdout out w)
    | None =>
        (Return tt,
         with_stdout out
           (with_opened (opened w ++ [env_path_of v])
              (with_disk (<[env_path_of v := env_content_of v publish_key subscribe_key]> (disk w)) w)))
    end.
Proof.
  destruct w, v; py_cases; eexists; reflexivity.
Qed.

(** ** The whole run *)

(** [main_eval] runs [main] and the process around it, the three stages
    kept as they are; [main_stage] brings in what a stage does. *)
Ltac main_eval :=
  cbv [observe expected stopped script_of
       CreateResources.script CreateResources.main
       SetupPubnub.script SetupPubnub.main
       run_script try_except bind ret raise lift sys_exit
       print traceback_print_exc get
       net deny sent disk opened stdout traces
       with_sent with_disk with_opened with_stdout with_traces fst snd negb andb
       app_request keys_accepted env_path_of env_content_of
       publish_field subscribe_field].

Ltac main_stage_with run :=
  let E := fresh "E" in
  destruct run as [? E];
  cbv [create_app_of create_keyset_of persist_of keyset_name] in E;
  rewrite E; clear E.

Ltac main_stage v :=
  match goal with
  | |- context [CreateResources.create_app ?name ?w] =>
      main_stage_with (create_app_run v name w)
  | |- context [SetupPubnub.create_app ?name ?w] =>
      main_stage_with (create_app_run v name w)
  | |- context [CreateResources.create_keyset ?id _ ?w] =>
      main_stage_with (create_keyset_run v id w)
  | |- context [SetupPubnub.create_keyset ?id _ ?w] =>
      main_stage_with (create_keyset_run v id w)
  | |- context [CreateResources.create_env_file ?p ?s ?w] =>
      main_stage_with (persist_run v p s w)
  | |- context [SetupPubnub.save_env_file ?p ?s ?w] =>
      main_stage_with (persist_run v p s w)
  end.

(** The test or the result that the run now hangs on. *)
Ltac scrutinee t :=
  lazymatch t with
  | match ?x with _ => _ end => scrutinee x
  | _ => t
  end.

Ltac main_case :=
  match goal with
  | |- _ = match ?y with _ => _ end => let x := scrutinee y in destruct x
  end.

(** The scripts do what [expected] reads off the replies. *)
Lemma pipeline_observed (v : variant) (w : world) : observe v w = expected v w.
Proof.
  destruct w, v; main_eval.
  - repeat ((main_stage Resources || main_case); main_eval);
      rewrite <- ?app_assoc; reflexivity.
  - repeat ((main_stage Setup || main_case); main_eval);
      rewrite <- ?app_assoc; reflexivity.
Qed.

(** ** Reading the replies *)

Lemma body_field_Some (k : string) (r : response) (x : value) :
  body_field k r = Some x ->
  exists fields, json r = Decoded (VDict fields) /\ dict_lookup k fields = Some x.
Proof.
  unfold body_field. destruct (json r) as [msg|[]]; try discriminate.
  intros H. exists fields. split; [reflexivity | exact H].
Qed.

Lemma dict_lookup_nonempty (k : string) (fields : list (string * value)) (x : value) :
  dict_lookup k fields = Some x -> truthy (VDict fields) = true.
Proof. destruct fields; [discriminate | reflexivity]. Qed.

Lemma dict_get_lookup (k : string) (fields : list (string * value)) (x : value) :
  dict_lookup k fields = Some x -> dict_get k fields = x.
Proof. unfold dict_get. intros ->. reflexivity. Qed.

(** A 200 or 201 whose body has an [id]: [create_app] returns it. *)
Lemma app_result_id (r : response) (id : value) :
  status_ok r = true -> body_field "id" r = Some id ->
  app_result (Reply r) = Return id.
Proof.
  intros Hst Hid. apply body_field_Some in Hid as (fields & Hj & Hid).
  unfold app_result, decode. rewrite Hst, Hj. cbn [attr_get].
  rewrite (dict_get_lookup _ _ _ Hid). reflexivity.
Qed.

Lemma stage1_id_ok (r : response) (id : value) :
  status_ok r = true -> body_field "id" r = Some id -> truthy id = true ->
  stage1_id (Reply r) = Some id.
Proof.
  intros Hst Hid Ht. unfold stage1_id. rewrite (app_result_id r id Hst Hid), Ht. reflexivity.
Qed.

(** Conversely, stage 1 hands over an identifier only from such a reply. *)
Lemma stage1_id_Some (rep : reply) (id : value) :
  stage1_id rep = Some id ->
  exists r, rep = Reply r /\ status_ok r = true /\ body_field "id" r = Some id /\
            truthy id = true.
Proof.
  unfold stage1_id, app_result, decode, body_field. intros H.
  destruct rep as [cls msg|r]; [discriminate|]. exists r.
  destruct (status_ok r); [|discriminate].
  destruct (json r) as [msg|[]]; try discriminate.
  cbn [attr_get] in H. unfold dict_get in H.
  destruct (dict_lookup "id" fields) as [x|]; [|discriminate].
  destruct (truthy x) eqn:Ht; [|discriminate].
  injection H as ->. repeat split; (reflexivity || assumption).
Qed.

(** Any other status, a body without [id], or an empty [id]: stage 1 hands
    over nothing. *)
Lemma stage1_id_failed (r : response) :
  status_ok r = false \/ body_field "id" r = None \/
    (exists id, body_field "id" r = Some id /\ truthy id = false) ->
  stage1_id (Reply r) = None.
Proof.
  intros H. destruct (stage1_id (Reply r)) as [id|] eqn:E; [|reflexivity].
  apply stage1_id_Some in E as (r' & [= <-] & Hst & Hid & Ht).
  destruct H as [H | [H | (id' & H & Hf)]]; congruence.
Qed.

(** The stages raise exceptions proper, never [SystemExit]. *)
Lemma attr_get_raises (x : value) (k : string) (e : exn) :
  attr_get x k = Raise e -> exists cls msg, e = Exception cls msg.
Proof. destruct x; cbn; intros [= <-]; eauto. Qed.

Lemma app_result_raises (rep : reply) (e : exn) :
  app_result rep = Raise e -> exists cls msg, e = Exception cls msg.
Proof.
  unfold app_result, decode. destruct rep as [cls msg|r]; [intros [= <-]; eauto|].
  destruct (status_ok r); [|discriminate].
  destruct (json r) as [msg|x]; [intros [= <-]; eauto|].
  apply attr_get_raises.
Qed.

Lemma keyset_result_raises (rep : reply) (e : exn) :
  keyset_result rep = Raise e -> exists cls msg, e = Exception cls msg.
Proof.
  unfold keyset_result, decode. destruct rep as [cls msg|r]; [intros [= <-]; eauto|].
  destruct (status_ok r); [|discriminate].
  destruct (json r) as [msg|x]; [intros [= <-]; eauto|].
  destruct (attr_get x "id") as [y|e'] eqn:E; [discriminate|].
  intros [= <-]. exact (attr_get_raises _ _ _ E).
Qed.

(** What [create_keyset] returns is [None] or a dict. *)
Lemma keyset_result_returns (rep : reply) (x : value) :
  keyset_result rep = Return x -> x = VNone \/ exists fields, x = VDict fields.
Proof.
  unfold keyset_result, decode. destruct rep as [cls msg|r]; [discriminate|].
  destruct (status_ok r); [|intros [= <-]; left; reflexivity].
  destruct (json r) as [msg|y]; [discriminate|].
  destruct y; cbn [attr_get]; intros [= <-]. right. eauto.
Qed.

(** A 200 or 201 whose body is a JSON object: [create_keyset] returns it. *)
Lemma keyset_result_record (r : response) (fields : list (string * value)) :
  status_ok r = true -> json r = Decoded (VDict fields) ->
  keyset_result (Reply r) = Return (VDict fields).
Proof.
  intros Hst Hj. unfold keyset_result, decode. rewrite Hst, Hj. reflexivity.
Qed.

(** ** The paths of a run *)

(** A run that stops on an exception has written nothing. *)
Lemma stopped_requests (e : exn) (reqs : list request) (w : world) :
  requests (stopped e reqs w) = reqs.
Proof. destruct e; reflexivity. Qed.

Lemma stopped_files (e : exn) (reqs : list request) (w : world) :
  files (stopped e reqs w) = disk w.
Proof. destruct e; reflexivity. Qed.

Lemma stopped_opens (e : exn) (reqs : list request) (w : world) :
  opens (stopped e reqs w) = opened w.
Proof. destruct e; reflexivity. Qed.

Section Paths.
Variable v : variant.
Variable w : world.

(** Stage 1 hands over nothing: one request, status 1, nothing written. *)
Lemma stage1_none_run :
  stage1_id (net w (sent w) app_request) = None ->
  exit_code (observe v w) = 1 /\
  requests (observe v w) = sent w ++ [app_request] /\
  files (observe v w) = disk w /\ opens (observe v w) = opened w.
Proof.
  rewrite pipeline_observed. unfold expected, stage1_id.
  destruct (app_result _) as [id|e] eqn:E.
  - destruct (truthy id); [discriminate|]. intros _. cbn. auto.
  - intros _. apply app_result_raises in E as (cls & msg & ->). cbn. auto.
Qed.

(** Stage 1 hands over [id]: the keyset request follows, scoped by [id],
    and no third request. *)
Lemma stage1_some_run (id : value) :
  stage1_id (net w (sent w) app_request) = Some id ->
  requests (observe v w) = sent w ++ [app_request; keyset_request v id].
Proof.
  rewrite pipeline_observed. unfold expected, stage1_id.
  destruct (app_result _) as [id'|e]; [|discriminate].
  destruct (truthy id'); [|discriminate]. intros [= ->]. cbn [negb].
  repeat match goal with
         | |- context [match ?x with _ => _ end] => destruct x
         end; rewrite ?stopped_requests; reflexivity.
Qed.

(** Stage 2 hands over nothing: status 1, nothing written. *)
Lemma stage2_none_run (id : value) :
  stage1_id (net w (sent w) app_request) = Some id ->
  stage2_record (net w (sent w ++ [app_request]) (keyset_request v id)) = None ->
  exit_code (observe v w) = 1 /\
  files (observe v w) = disk w /\ opens (observe v w) = opened w.
Proof.
  rewrite pipeline_observed. unfold expected, stage1_id, stage2_record.
  destruct (app_result _) as [id'|e]; [|discriminate].
  destruct (truthy id'); [|discriminate]. intros [= ->]. cbn [negb].
  destruct (keyset_result _) as [d|e] eqn:E.
  - destruct (truthy d); [discriminate|]. intros _. cbn. auto.
  - intros _. apply keyset_result_raises in E as (cls & msg & ->). cbn. auto.
Qed.

(** Both stages hand over: the keys are read, tested and written. *)
Lemma stage3_run (id : value) (fields : list (string * value)) :
  stage1_id (net w (sent w) app_request) = Some id ->
  stage2_record (net w (sent w ++ [app_request]) (keyset_request v id)) = Some (VDict fields) ->
  let publish_key := dict_get (publish_field v) fields in
  let subscribe_key := dict_get (subscribe_field v) fields in
  observe v w =
  if keys_accepted v publish_key subscribe_key then
    match deny w (env_path_of v) with
    | Some msg =>
        stopped (Exception "OSError" msg) (sent w ++ [app_request; keyset_request v id]) w
    | None =>
        {| exit_code := 0;
           requests := sent w ++ [app_request; keyset_request v id];
           files := <[env_path_of v := env_content_of v publish_key subscribe_key]> (disk w);
           opens := opened w ++ [env_path_of v];
           tracebacks := traces w |}
    end
  else stopped (SystemExit 1) (sent w ++ [app_request; keyset_request v id]) w.
Proof.
  rewrite pipeline_observed. unfold expected, stage1_id, stage2_record.
  destruct (app_result _) as [id'|e]; [|discriminate].
  destruct (truthy id'); [|discriminate]. intros [= ->]. cbn [negb].
  destruct (keyset_result _) as [d|e]; [|discriminate].
  destruct (truthy d); [|discriminate]. intros [= ->]. cbn [negb attr_get].
  reflexivity.
Qed.
End Paths.

Lemma stage2_record_ok (r : response) (fields : list (string * value)) :
  status_ok r = true -> json r = Decoded (VDict fields) ->
  truthy (VDict fields) = true ->
  stage2_record (Reply r) = Some (VDict fields).
Proof.
  intros Hst Hj Ht. unfold stage2_record.
  rewrite (keyset_result_record r fields Hst Hj), Ht. reflexivity.
Qed.

Lemma stage2_record_Some (r : response) (d : value) :
  stage2_record (Reply r) = Some d ->
  exists fields, d = VDict fields /\ status_ok r = true /\ json r = Decoded (VDict fields).
Proof.
  unfold stage2_record, keyset_result, decode.
  destruct (status_ok r); [|discriminate].
  destruct (json r) as [msg|x]; [discriminate|].
  destruct x; try discriminate. cbn [attr_get].
  destruct (truthy (VDict fields)); [|discriminate].
  intros [= <-]. exists fields. auto.
Qed.

(** * The claims *)

(** ** Stage 1 decides whether stage 2 runs *)

(** C4. When the application-creation response has a status other than
    200 and 201, or a body without [id], or an [id] that is empty, both
    scripts issue the application request and no other, and exit with
    status 1.  Equivalently: a run that issues anything after the
    application request is one in which stage 1 handed over a non-empty
    identifier, and what it issues is the keyset request for it. *)
Theorem C4_stage1_failure_stops_before_keyset (v : variant) (w : world) :
  (forall r1,
      net w (sent w) app_request = Reply r1 ->
      status_ok r1 = false \/ body_field "id" r1 = None \/
        (exists id, body_field "id" r1 = Some id /\ truthy id = false) ->
      requests (observe v w) = sent w ++ [app_request] /\
      exit_code (observe v w) = 1)
  /\ (requests (observe v w) <> sent w ++ [app_request] ->
      exists id,
        stage1_id (net w (sent w) app_request) = Some id /\
        requests (observe v w) = sent w ++ [app_request; keyset_request v id]).
Proof.
  split.
  - intros r1 Hnet Hfail.
    destruct (stage1_none_run v w) as (Hexit & Hreqs & _).
    + rewrite Hnet. apply stage1_id_failed, Hfail.
    + auto.
  - intros Hmore.
    destruct (stage1_id (net w (sent w) app_request)) as [id|] eqn:E.
    + exists id. split; [reflexivity|]. apply stage1_some_run, E.
    + destruct (stage1_none_run v w E) as (_ & Hreqs & _). contradiction.
Qed.

Lemma C4_witness :
  (requests (observe Setup world_unauthorized) = [app_request] /\
   exit_code (observe Setup world_unauthorized) = 1)
  /\ (exists id,
        stage1_id (net (world_success Setup) (sent (world_success Setup)) app_request)
          = Some id /\
        requests (observe Setup (world_success Setup)) =
          [app_request; keyset_request Setup id]).
Proof.
  split.
  - refine (proj1 (C4_stage1_failure_stops_before_keyset Setup world_unauthorized)
              unauthorized _ _).
    + reflexivity.
    + left. reflexivity.
  - refine (proj2 (C4_stage1_failure_stops_before_keyset Setup (world_success Setup)) _).
    rewrite (stage1_some_run Setup (world_success Setup) (VStr "app_123") eq_refl).
    discriminate.
Defined.

(** C3, as the code has it.  When the application-creation response has
    status 200 or 201 and an [id] that is present and not empty, both
    scripts go on to the keyset request, and that request carries the
    identifier as it came: in the URL path
    [/apps/<id>/keysets] for create_pubnub_resources.py, as the body field
    [app_id] for setup-pubnub.py.  No other request follows. *)
Theorem C3_app_id_scopes_keyset_request
    (v : variant) (w : world) (r1 : response) (id : value) :
  net w (sent w) app_request = Reply r1 ->
  status_ok r1 = true ->
  body_field "id" r1 = Some id ->
  truthy id = true ->
  requests (observe v w) = sent w ++ [app_request; keyset_request v id]
  /\ scoped_to v id (keyset_request v id).
Proof.
  intros Hnet Hst Hid Ht. split.
  - apply stage1_some_run. rewrite Hnet. apply stage1_id_ok; assumption.
  - destruct v; cbn.
    + reflexivity.
    + eexists. split; reflexivity.
Qed.

Lemma C3_witness :
  requests (observe Resources (world_success Resources)) =
    [app_request; keyset_request Resources (VStr "app_123")]
  /\ scoped_to Resources (VStr "app_123") (keyset_request Resources (VStr "app_123")).
Proof.
  refine (C3_app_id_scopes_keyset_request Resources (world_success Resources)
            app_123_created (VStr "app_123") _ _ _ _); reflexivity.
Defined.

(** C3 as the specification words it fails: a 201 response whose [id] is
    present and empty stops create_pubnub_resources.py after the
    application request, with status 1. *)
Lemma C3_counterexample :
  net world_empty_id (sent world_empty_id) app_request = Reply app_with_empty_id /\
  status_ok app_with_empty_id = true /\
  body_field "id" app_with_empty_id = Some (VStr "") /\
  requests (observe Resources world_empty_id) = [app_request] /\
  exit_code (observe Resources world_empty_id) = 1.
Proof.
  split; [reflexivity|]. split; [reflexivity|]. split; [reflexivity|].
  destruct (stage1_none_run Resources world_empty_id) as (Hexit & Hreqs & _);
    [reflexivity|].
  split; assumption.
Qed.

(** ** An aborted run writes nothing *)

(** C9. A run that stops at stage 1 (no usable application identifier) or
    at stage 2 (no keyset record) never opens the credentials file: the
    disk is as it was before the run, and the exit status is 1. *)
Theorem C9_aborted_run_leaves_disk_untouched (v : variant) (w : world) :
  stage1_id (net w (sent w) app_request) = None \/
  (exists id,
      stage1_id (net w (sent w) app_request) = Some id /\
      stage2_record (net w (sent w ++ [app_request]) (keyset_request v id)) = None) ->
  files (observe v w) = disk w /\
  opens (observe v w) = opened w /\
  exit_code (observe v w) = 1.
Proof.
  intros [H1 | (id & H1 & H2)].
  - destruct (stage1_none_run v w H1) as (Hexit & _ & Hfiles & Hopens). auto.
  - destruct (stage2_none_run v w id H1 H2) as (Hexit & Hfiles & Hopens). auto.
Qed.

Lemma C9_witness :
  files (observe Resources world_keyset_unauthorized) = ∅ /\
  opens (observe Resources world_keyset_unauthorized) = [] /\
  exit_code (observe Resources world_keyset_unauthorized) = 1.
Proof.
  apply (C9_aborted_run_leaves_disk_untouched Resources world_keyset_unauthorized).
  right. exists (VStr "app_123"). split; reflexivity.
Defined.

(** ** Stage 2 decides whether stage 3 runs *)

(** What [main] reads as a key is what the response carries under the
    field. *)
Lemma credential_read (k : string) (r : response) (fields : list (string * value)) :
  json r = Decoded (VDict fields) ->
  truthy (dict_get k fields) = has_credential k r.
Proof.
  intros Hj. unfold has_credential, body_field, dict_get. rewrite Hj.
  destruct (dict_lookup k fields); reflexivity.
Qed.

(** create_pubnub_resources.py tests the two keys: a keyset response that
    lacks one of them, or carries an empty one, leaves the disk as it was,
    and the exit status is 1. *)
Lemma resources_keys_required (w : world) (id : value) (r2 : response) :
  stage1_id (net w (sent w) app_request) = Some id ->
  net w (sent w ++ [app_request]) (keyset_request Resources id) = Reply r2 ->
  has_credential "publishKey" r2 = false \/ has_credential "subscribeKey" r2 = false ->
  files (observe Resources w) = disk w /\
  opens (observe Resources w) = opened w /\
  exit_code (observe Resources w) = 1.
Proof.
  intros H1 Hnet Hkeys.
  destruct (stage2_record (Reply r2)) as [d|] eqn:H2.
  - destruct (stage2_record_Some r2 d H2) as (fields & -> & Hst & Hj).
    rewrite <- Hnet in H2. rewrite (stage3_run Resources w id fields H1 H2).
    cbn [keys_accepted publish_field subscribe_field].
    rewrite !(credential_read _ r2 fields Hj).
    destruct Hkeys as [-> | ->]; rewrite ?andb_false_r; cbn; auto.
  - rewrite <- Hnet in H2.
    destruct (stage2_none_run Resources w id H1 H2) as (Hexit & Hfiles & Hopens). auto.
Qed.

(** C1 fails on setup-pubnub.py, which calls [save_env_file] without
    testing the keys: on a keyset response that has neither key the script
    writes the file, with [None] for both values, and exits with status 0. *)
Theorem C1_setup_writes_file_without_keys :
  net world_no_keys [app_request] (keyset_request Setup (VStr "app_123"))
    = Reply keyset_without_keys /\
  body_field "publish_key" keyset_without_keys = None /\
  body_field "subscribe_key" keyset_without_keys = None /\
  exit_code (observe Setup world_no_keys) = 0 /\
  opens (observe Setup world_no_keys) = [SetupPubnub.env_path] /\
  files (observe Setup world_no_keys) !! SetupPubnub.env_path =
    Some ("VITE_PUBNUB_PUBLISH_KEY=None" +:+ newline +:+
          "VITE_PUBNUB_SUBSCRIBE_KEY=None" +:+ newline).
Proof.
  split; [reflexivity|]. split; [reflexivity|]. split; [reflexivity|].
  rewrite (stage3_run Setup world_no_keys (VStr "app_123") [("id", VStr "ks_1")]);
    [|reflexivity|reflexivity].
  cbn [keys_accepted exit_code opens files].
  split; [reflexivity|]. split; [reflexivity|].
  cbn [deny world_no_keys fresh_world]. cbn [files].
  rewrite lookup_insert_eq. reflexivity.
Qed.

(** The same response on create_pubnub_resources.py: nothing written,
    status 1. *)
Lemma C1_holds_for_create_resources :
  files (observe Resources world_no_keys) = ∅ /\
  opens (observe Resources world_no_keys) = [] /\
  exit_code (observe Resources world_no_keys) = 1.
Proof.
  apply (resources_keys_required world_no_keys (VStr "app_123") keyset_without_keys).
  - reflexivity.
  - reflexivity.
  - left. reflexivity.
Qed.

(** ** The lines of the written file *)

Lemma str_app_nil_r (s : string) : s +:+ "" = s.
Proof. induction s as [|c s IH]; [reflexivity | exact (f_equal (String c) IH)]. Qed.

Lemma str_app_assoc (a b c : string) : (a +:+ b) +:+ c = a +:+ (b +:+ c).
Proof. induction a as [|x a IH]; [reflexivity | exact (f_equal (String x) IH)]. Qed.

(** Text without a line feed stays on the line being read. *)
Lemma file_lines_from_app (line a rest : string) :
  occurs "010" a = false ->
  file_lines_from line (a +:+ rest) = file_lines_from (line +:+ a) rest.
Proof.
  revert line. induction a as [|c a IH]; intros line Hno.
  - cbn. rewrite str_app_nil_r. reflexivity.
  - cbn [occurs] in Hno. apply orb_false_elim in Hno as [Hc Ha].
    change (String c a +:+ rest) with (String c (a +:+ rest)).
    cbn [file_lines_from].
    rewrite Ascii.eqb_sym, Hc, (IH _ Ha), str_app_assoc. reflexivity.
Qed.

(** A line feed ends the line. *)
Lemma file_lines_from_newline (line rest : string) :
  file_lines_from line (newline +:+ rest) = line :: file_lines_from "" rest.
Proof. reflexivity. Qed.

(** The two [KEY=value] lines, as both scripts end the file. *)
Lemma file_lines_keys (line p s : string) :
  occurs "010" p = false -> occurs "010" s = false ->
  file_lines_from line
    ("VITE_PUBNUB_PUBLISH_KEY=" +:+ p +:+ newline +:+
     "VITE_PUBNUB_SUBSCRIBE_KEY=" +:+ s +:+ newline)
  = [line +:+ publish_line p; subscribe_line s].
Proof.
  intros Hp Hs.
  rewrite (file_lines_from_app line "VITE_PUBNUB_PUBLISH_KEY=") by reflexivity.
  rewrite (file_lines_from_app _ p) by exact Hp.
  rewrite file_lines_from_newline.
  rewrite (file_lines_from_app "" "VITE_PUBNUB_SUBSCRIBE_KEY=") by reflexivity.
  rewrite (file_lines_from_app _ s) by exact Hs.
  rewrite <- (str_app_nil_r newline), file_lines_from_newline.
  rewrite str_app_assoc. reflexivity.
Qed.

Lemma env_content_lines (v : variant) (p s : string) :
  occurs "010" p = false -> occurs "010" s = false ->
  file_lines (env_content_of v (VStr p) (VStr s)) =
  env_header_lines v ++ [publish_line p; subscribe_line s].
Proof.
  intros Hp Hs. destruct v; unfold file_lines.
  - unfold env_content_of, CreateResources.env_content. cbn [py_str env_header_lines].
    rewrite (file_lines_from_app "" "# PubNub Configuration for Swap It!") by reflexivity.
    rewrite file_lines_from_newline.
    rewrite (file_lines_from_app "" "# Generated automatically") by reflexivity.
    rewrite !file_lines_from_newline.
    rewrite (file_lines_keys "" p s Hp Hs). reflexivity.
  - unfold env_content_of, SetupPubnub.env_content. cbn [py_str env_header_lines].
    rewrite (file_lines_keys "" p s Hp Hs). reflexivity.
Qed.

(** ** A successful run *)

(** C2, as the code has it.  In a run where both stages succeed with the
    credentials [P] and [S] and the file can be written, the exit status
    is 0, the credentials file is the only path of the disk that changes,
    and it holds the text of [env_content]; for credentials without a line
    break its lines are the lines [VITE_PUBNUB_PUBLISH_KEY=P] and
    [VITE_PUBNUB_SUBSCRIBE_KEY=S], in this order, which
    create_pubnub_resources.py precedes by two comment lines and an empty
    line, and setup-pubnub.py by nothing. *)
Theorem C2_written_file_holds_the_two_keys
    (v : variant) (w : world) (r1 r2 : response) (id : value) (P S : string) :
  net w (sent w) app_request = Reply r1 ->
  status_ok r1 = true ->
  body_field "id" r1 = Some id ->
  truthy id = true ->
  net w (sent w ++ [app_request]) (keyset_request v id) = Reply r2 ->
  status_ok r2 = true ->
  body_field (publish_field v) r2 = Some (VStr P) ->
  body_field (subscribe_field v) r2 = Some (VStr S) ->
  P <> "" -> S <> "" ->
  deny w (env_path_of v) = None ->
  exit_code (observe v w) = 0
  /\ files (observe v w) !! env_path_of v = Some (env_content_of v (VStr P) (VStr S))
  /\ (forall path, path <> env_path_of v -> files (observe v w) !! path = disk w !! path)
  /\ (occurs "010" P = false -> occurs "010" S = false ->
      file_lines (env_content_of v (VStr P) (VStr S)) =
      env_header_lines v ++ [publish_line P; subscribe_line S]).
Proof.
  intros Hnet1 Hst1 Hid Ht Hnet2 Hst2 HP HS HPne HSne Hdeny.
  apply body_field_Some in HP as (fields & Hj & HP).
  apply body_field_Some in HS as (fields' & Hj' & HS).
  rewrite Hj in Hj'. injection Hj' as <-.
  rewrite (stage3_run v w id fields).
  - rewrite (dict_get_lookup _ _ _ HP), (dict_get_lookup _ _ _ HS), Hdeny.
    assert (keys_accepted v (VStr P) (VStr S) = true) as ->.
    { destruct v; [|reflexivity]. cbn.
      apply String.eqb_neq in HPne, HSne. rewrite HPne, HSne. reflexivity. }
    cbn [exit_code files]. split; [reflexivity|]. split; [apply lookup_insert_eq|].
    split; [|apply env_content_lines].
    intros path Hpath. apply lookup_insert_ne. congruence.
  - rewrite Hnet1. apply stage1_id_ok; assumption.
  - rewrite Hnet2. apply stage2_record_ok; [assumption..|].
    exact (dict_lookup_nonempty _ _ _ HP).
Qed.

Lemma C2_witness :
  exit_code (observe Setup (world_success Setup)) = 0
  /\ files (observe Setup (world_success Setup)) !! SetupPubnub.env_path =
       Some (env_content_of Setup (VStr "pub_abc") (VStr "sub_xyz"))
  /\ (forall path, path <> SetupPubnub.env_path ->
        files (observe Setup (world_success Setup)) !! path = (∅ : gmap string string) !! path)
  /\ (occurs "010" "pub_abc" = false -> occurs "010" "sub_xyz" = false ->
      file_lines (env_content_of Setup (VStr "pub_abc") (VStr "sub_xyz")) =
      [publish_line "pub_abc"; subscribe_line "sub_xyz"]).
Proof.
  refine (C2_written_file_holds_the_two_keys Setup (world_success Setup)
            app_123_created (keyset_created Setup) (VStr "app_123") "pub_abc" "sub_xyz"
            _ _ _ _ _ _ _ _ _ _ _); (reflexivity || discriminate).
Defined.

(** C2 as the specification words it fails: the file that
    create_pubnub_resources.py writes in a successful run has five lines,
    not two. *)
Lemma C2_counterexample :
  exit_code (observe Resources (world_success Resources)) = 0 /\
  exists content,
    files (observe Resources (world_success Resources)) !! CreateResources.env_path
      = Some content /\
    file_lines content =
      ["# PubNub Configuration for Swap It!"; "# Generated automatically"; "";
       publish_line "pub_abc"; subscribe_line "sub_xyz"] /\
    file_lines content <> [publish_line "pub_abc"; subscribe_line "sub_xyz"].
Proof.
  rewrite (stage3_run Resources (world_success Resources) (VStr "app_123")
             [("publishKey", VStr "pub_abc"); ("subscribeKey", VStr "sub_xyz")]);
    [|reflexivity|reflexivity].
  cbn [keys_accepted exit_code files]. split; [reflexivity|].
  eexists. split; [apply lookup_insert_eq|].
  split; [reflexivity | discriminate].
Qed.

(** ** Stage 3 on its own *)

(** C5. The persist operation opens one path, fixed in the script, and
    leaves there the text of [env_content], a function of the two keys
    alone: run on two disks that differ in any way, it leaves the same
    file.  Every other path of the disk is as before, so no copy of the
    earlier file is kept. *)
Theorem C5_persist_overwrites_one_path
    (v : variant) (publish_key subscribe_key : value) (w1 w2 : world) :
  deny w1 (env_path_of v) = None ->
  deny w2 (env_path_of v) = None ->
  let after1 := snd (persist_of v publish_key subscribe_key w1) in
  let after2 := snd (persist_of v publish_key subscribe_key w2) in
  disk after1 !! env_path_of v = Some (env_content_of v publish_key subscribe_key)
  /\ disk after1 !! env_path_of v = disk after2 !! env_path_of v
  /\ (forall path, path <> env_path_of v -> disk after1 !! path = disk w1 !! path)
  /\ opened after1 = opened w1 ++ [env_path_of v].
Proof.
  intros H1 H2 after1 after2. subst after1 after2.
  destruct (persist_run v publish_key subscribe_key w1) as [out1 ->].
  destruct (persist_run v publish_key subscribe_key w2) as [out2 ->].
  rewrite H1, H2. cbn [snd disk opened with_stdout with_opened with_disk].
  rewrite !lookup_insert_eq. repeat split.
  intros path Hpath. apply lookup_insert_ne. congruence.
Qed.

Lemma C5_witness :
  let after1 := snd (persist_of Setup (VStr "pub_abc") (VStr "sub_xyz")
                       (world_with_old_env Setup)) in
  let after2 := snd (persist_of Setup (VStr "pub_abc") (VStr "sub_xyz")
                       (world_success Setup)) in
  disk after1 !! SetupPubnub.env_path =
    Some (env_content_of Setup (VStr "pub_abc") (VStr "sub_xyz"))
  /\ disk after1 !! SetupPubnub.env_path = disk after2 !! SetupPubnub.env_path
  /\ (forall path, path <> SetupPubnub.env_path ->
        disk after1 !! path = disk (world_with_old_env Setup) !! path)
  /\ opened after1 = [SetupPubnub.env_path].
Proof.
  exact (C5_persist_overwrites_one_path Setup (VStr "pub_abc") (VStr "sub_xyz")
           (world_with_old_env Setup) (world_success Setup) eq_refl eq_refl).
Defined.

(** ** The exit status *)

(** An exception that leaves [main] gives a traceback and status 1. *)
Lemma main_raises_run (v : variant) (w : world) (cls msg : string) :
  fst (main_of v w) = Raise (Exception cls msg) ->
  exit_code (observe v w) = 1 /\
  Exception cls msg ∈ tracebacks (observe v w).
Proof.
  unfold observe, run_script. intros H.
  destruct v; unfold script_of, main_of, CreateResources.script, SetupPubnub.script in *.
  - unfold try_except. destruct (CreateResources.main w) as [o w']. cbn [fst] in H. subst o.
    cbv [bind print traceback_print_exc sys_exit raise]. cbn.
    split; [reflexivity|]. apply elem_of_app. right. apply list_elem_of_singleton. reflexivity.
  - destruct (SetupPubnub.main w) as [o w']. cbn [fst] in H. subst o. cbn.
    split; [reflexivity|]. apply elem_of_app. right. apply list_elem_of_singleton. reflexivity.
Qed.

(** C6. In both scripts an exception that leaves [main] (a transport
    exception raised by either HTTP call is one) ends the process with a
    traceback and status 1; when the three stages succeed, the status is
    0. *)
Theorem C6_exit_status (v : variant) (w : world) :
  (forall cls msg,
      fst (main_of v w) = Raise (Exception cls msg) ->
      exit_code (observe v w) = 1 /\ Exception cls msg ∈ tracebacks (observe v w))
  /\ (forall cls msg,
      net w (sent w) app_request = Fault cls msg ->
      exit_code (observe v w) = 1 /\
      tracebacks (observe v w) = traces w ++ [Exception cls msg])
  /\ (forall id cls msg,
      stage1_id (net w (sent w) app_request) = Some id ->
      net w (sent w ++ [app_request]) (keyset_request v id) = Fault cls msg ->
      exit_code (observe v w) = 1 /\
      tracebacks (observe v w) = traces w ++ [Exception cls msg])
  /\ (forall id fields,
      stage1_id (net w (sent w) app_request) = Some id ->
      stage2_record (net w (sent w ++ [app_request]) (keyset_request v id))
        = Some (VDict fields) ->
      keys_accepted v (dict_get (publish_field v) fields)
                      (dict_get (subscribe_field v) fields) = true ->
      deny w (env_path_of v) = None ->
      exit_code (observe v w) = 0 /\ tracebacks (observe v w) = traces w).
Proof.
  split; [|split; [|split]].
  - intros cls msg. apply main_raises_run.
  - intros cls msg Hnet. rewrite pipeline_observed. unfold expected.
    rewrite Hnet. cbn. auto.
  - intros id cls msg H1 Hnet. rewrite pipeline_observed. unfold expected.
    unfold stage1_id in H1.
    destruct (app_result _) as [id'|e]; [|discriminate].
    destruct (truthy id'); [|discriminate]. injection H1 as ->.
    cbn [negb]. rewrite Hnet. cbn. auto.
  - intros id fields H1 H2 Hkeys Hdeny.
    rewrite (stage3_run v w id fields H1 H2). cbv zeta. rewrite Hkeys, Hdeny. cbn. auto.
Qed.

Lemma C6_witness :
  (exit_code (observe Setup world_offline) = 1 /\
   Exception "ConnectionError" "Connection refused" ∈ tracebacks (observe Setup world_offline))
  /\ (exit_code (observe Resources world_offline) = 1 /\
      tracebacks (observe Resources world_offline) =
        [Exception "ConnectionError" "Connection refused"])
  /\ (exit_code (observe Setup world_cut_off) = 1 /\
      tracebacks (observe Setup world_cut_off) = [Exception "ReadTimeout" "Read timed out"])
  /\ (exit_code (observe Resources (world_success Resources)) = 0 /\
      tracebacks (observe Resources (world_success Resources)) = []).
Proof.
  split; [|split; [|split]].
  - exact (proj1 (C6_exit_status Setup world_offline)
             "ConnectionError" "Connection refused" eq_refl).
  - exact (proj1 (proj2 (C6_exit_status Resources world_offline))
             "ConnectionError" "Connection refused" eq_refl).
  - exact (proj1 (proj2 (proj2 (C6_exit_status Setup world_cut_off)))
             (VStr "app_123") "ReadTimeout" "Read timed out" eq_refl eq_refl).
  - exact (proj2 (proj2 (proj2 (C6_exit_status Resources (world_success Resources))))
             (VStr "app_123")
             [("publishKey", VStr "pub_abc"); ("subscribeKey", VStr "sub_xyz")]
             eq_refl eq_refl eq_refl eq_refl).
Defined.

(** ** Stage 1 on its own *)

Lemma stage1_id_result (rep : reply) (id : value) :
  stage1_id rep = Some id <-> app_result rep = Return id /\ truthy id = true.
Proof.
  unfold stage1_id. split.
  - destruct (app_result rep) as [x|e]; [|discriminate].
    destruct (truthy x) eqn:Ht; [|discriminate]. intros [= <-]. auto.
  - intros [-> ->]. reflexivity.
Qed.

(** C7, as the code has it.  [create_app] issues one request: a POST with
    the [Authorization: Bearer] and [Content-Type: application/json]
    headers and the JSON body [{"name": name}], nothing more.  What it
    returns passes the test of [main] exactly when the status is 200 or
    201 and the body is a JSON object whose [id] is present and not
    empty. *)
Theorem C7_app_request_and_success (v : variant) (name : string) (w : world) :
  let req := app_request_for name in
  sent (snd (create_app_of v name w)) = sent w ++ [req]
  /\ method req = POST
  /\ req_headers req =
       [("Authorization", "Bearer " +:+ API_KEY); ("Content-Type", "application/json")]
  /\ payload req = Some (VDict [("name", VStr name)])
  /\ (forall id,
         fst (create_app_of v name w) = Return id /\ truthy id = true <->
         exists r,
           net w (sent w) req = Reply r /\ status_ok r = true /\
           body_field "id" r = Some id /\ truthy id = true).
Proof.
  intros req. subst req. destruct (create_app_run v name w) as [out ->].
  cbn [fst snd sent with_stdout with_sent].
  repeat (split; [reflexivity|]).
  intros id. rewrite <- stage1_id_result. split.
  - apply stage1_id_Some.
  - intros (r & -> & Hst & Hid & Ht). apply stage1_id_ok; assumption.
Qed.

(** C7 as the specification words it fails, on setup-pubnub.py: a 201
    response whose body has an [id], the empty string, is not a success
    ([create_app] returns the empty string, [main] exits with status 1 and
    no keyset request); and a 200 response with no [id] at all still gets
    the line that reports success. *)
Lemma C7_counterexample :
  (net world_empty_id (sent world_empty_id) app_request = Reply app_with_empty_id /\
   status_ok app_with_empty_id = true /\
   body_field "id" app_with_empty_id = Some (VStr "") /\
   fst (create_app_of Setup "Swap It Game" world_empty_id) = Return (VStr "") /\
   truthy (VStr "") = false /\
   requests (observe Setup world_empty_id) = [app_request] /\
   exit_code (observe Setup world_empty_id) = 1)
  /\ (net world_no_id (sent world_no_id) app_request = Reply app_without_id /\
      body_field "id" app_without_id = None /\
      stdout (snd (create_app_of Setup "Swap It Game" world_no_id)) !! 3%nat =
        Some "✓ App created successfully!").
Proof.
  split.
  - repeat (split; [reflexivity|]).
    destruct (stage1_none_run Setup world_empty_id) as (Hexit & Hreqs & _);
      [reflexivity|].
    split; assumption.
  - repeat split; reflexivity.
Qed.

(** ** The probing script *)

(** One turn of the loop: one request, whatever the reply. *)
Lemma probe_run (m u d : string) (w : world) :
  exists out,
    TestApiEndpoints.probe m u d w =
    (Return tt, with_stdout out (with_sent (sent w ++ [probe_issue (m, u, d)]) w)).
Proof.
  destruct w as [n dn s dk op so tr].
  cbv [TestApiEndpoints.probe probe_issue probe_request bind print try_except
       requests_get requests_post issue fst snd
       net deny sent disk opened stdout traces
       with_sent with_disk with_opened with_stdout with_traces].
  destruct (String.eqb m "GET");
    match goal with
    | |- context [match ?f ?h ?r with Fault _ _ => _ | Reply _ => _ end] =>
        destruct (f h r)
    end; eexists; reflexivity.
Qed.

(** The loop issues one request per entry, in order. *)
Lemma for_each_run (l : list (string * string * string)) (w : world) :
  exists out,
    TestApiEndpoints.for_each l w =
    (Return tt, with_stdout out (with_sent (sent w ++ map probe_issue l) w)).
Proof.
  revert w. induction l as [|[[m u] d] l IH]; intros w.
  - exists (stdout w). destruct w. cbn. rewrite app_nil_r. reflexivity.
  - cbn [TestApiEndpoints.for_each]. unfold bind.
    destruct (probe_run m u d w) as [out ->].
    destruct (IH (with_stdout out (with_sent (sent w ++ [probe_issue (m, u, d)]) w)))
      as [out' ->].
    exists out'. destruct w. cbn. rewrite <- app_assoc. reflexivity.
Qed.

Lemma probing_script_run (w : world) :
  exists out,
    TestApiEndpoints.script w =
    (Return tt,
     with_stdout out (with_sent (sent w ++ map probe_issue TestApiEndpoints.endpoints) w)).
Proof.
  unfold TestApiEndpoints.script, bind, print.
  destruct (for_each_run TestApiEndpoints.endpoints
              (with_stdout (stdout w ++ ["Testing PubNub API endpoints..." +:+ newline]) w))
    as [out ->].
  exists out. destruct w. reflexivity.
Qed.

(** ** Nothing reads standard output back *)

Section Blind.
Context {A B : Type}.

Lemma blind_lift (o : outcome A) : stdout_blind (lift o).
Proof. intros w1 w2 H. split; [reflexivity | exact H]. Qed.

Lemma blind_ret (a : A) : stdout_blind (ret a).
Proof. exact (blind_lift (Return a)). Qed.

Lemma blind_raise (e : exn) : stdout_blind (@raise A e).
Proof. exact (blind_lift (Raise e)). Qed.

Lemma blind_bind (c : py A) (k : A -> py B) :
  stdout_blind c -> (forall a, stdout_blind (k a)) -> stdout_blind (bind c k).
Proof.
  intros Hc Hk w1 w2 H. unfold bind.
  destruct (Hc w1 w2 H) as [Ho Hw].
  destruct (c w1) as [o1 w1'], (c w2) as [o2 w2']. cbn [fst snd] in *. subst o2.
  destruct o1 as [a|e]; [apply Hk, Hw | split; [reflexivity | exact Hw]].
Qed.

Lemma blind_try_except (c : py A) (h : string -> string -> py A) :
  stdout_blind c -> (forall cls msg, stdout_blind (h cls msg)) ->
  stdout_blind (try_except c h).
Proof.
  intros Hc Hh w1 w2 H. unfold try_except.
  destruct (Hc w1 w2 H) as [Ho Hw].
  destruct (c w1) as [o1 w1'], (c w2) as [o2 w2']. cbn [fst snd] in *. subst o2.
  destruct o1 as [a|[code|cls msg]]; [split; [reflexivity | exact Hw]..|].
  apply Hh, Hw.
Qed.
End Blind.

Lemma blind_print (s : string) : stdout_blind (print s).
Proof. intros w1 w2 H. split; [reflexivity | exact H]. Qed.

Lemma blind_traceback (e : exn) : stdout_blind (traceback_print_exc e).
Proof.
  intros w1 w2 (Hn & Hd & Hs & Hk & Ho & Ht). split; [reflexivity|].
  repeat split; cbn; congruence.
Qed.

Lemma blind_issue (r : request) : stdout_blind (issue r).
Proof.
  intros w1 w2 (Hn & Hd & Hs & Hk & Ho & Ht). unfold issue.
  rewrite Hn, Hs. destruct (net w2 (sent w2) r); (split; [reflexivity|]);
    repeat split; cbn; congruence.
Qed.

Lemma blind_write_file (path content : string) : stdout_blind (write_file path content).
Proof.
  intros w1 w2 (Hn & Hd & Hs & Hk & Ho & Ht). rewrite !write_file_run.
  rewrite Hd. destruct (deny w2 path); (split; [reflexivity|]);
    repeat split; cbn; congruence.
Qed.

(** Script code is built from the operations above. *)
Ltac blind_step :=
  lazymatch goal with
  | |- stdout_blind (bind _ _) => apply blind_bind; [|intro]
  | |- stdout_blind (print _) => apply blind_print
  | |- stdout_blind (ret _) => apply blind_ret
  | |- stdout_blind (raise _) => apply blind_raise
  | |- stdout_blind (sys_exit _) => apply blind_raise
  | |- stdout_blind (lift _) => apply blind_lift
  | |- stdout_blind (response_json _) => apply blind_lift
  | |- stdout_blind (get _ _) => apply blind_lift
  | |- stdout_blind (issue _) => apply blind_issue
  | |- stdout_blind (requests_post _ _ _ _) => apply blind_issue
  | |- stdout_blind (requests_get _ _ _) => apply blind_issue
  | |- stdout_blind (write_file _ _) => apply blind_write_file
  | |- stdout_blind (traceback_print_exc _) => apply blind_traceback
  | |- stdout_blind (try_except _ _) => apply blind_try_except; [|intros ? ?]
  | |- stdout_blind (if ?b then _ else _) => destruct b
  | |- stdout_blind (let x := _ in _) => cbv zeta
  | |- stdout_blind ((fun x => _) _) => cbv beta
  end.

Ltac blind := repeat blind_step.

Lemma blind_script (v : variant) : stdout_blind (script_of v).
Proof.
  destruct v; cbv [script_of].
  - unfold CreateResources.script, CreateResources.main, CreateResources.create_app,
      CreateResources.create_keyset, CreateResources.create_env_file. blind.
  - unfold SetupPubnub.script, SetupPubnub.main, SetupPubnub.create_app,
      SetupPubnub.create_keyset, SetupPubnub.save_env_file. blind.
Qed.

(** What a pipeline leaves behind does not depend on what was printed
    before it ran. *)
Lemma observe_blind (v : variant) (w1 w2 : world) :
  same_but_stdout w1 w2 -> observe v w1 = observe v w2.
Proof.
  intros H. destruct (blind_script v w1 w2 H) as [Ho Hw].
  unfold observe, run_script.
  destruct (script_of v w1) as [o1 w1'], (script_of v w2) as [o2 w2'].
  cbn [fst snd] in *. subst o2.
  destruct Hw as (Hn & Hd & Hs & Hk & Hop & Ht).
  destruct o1 as [[]|[code|cls msg]]; cbn; congruence.
Qed.

(** C8. Whatever the platform replies, transport exceptions included, the
    probing script issues its five requests, in the order of the list,
    each a GET without body and with a timeout of 5 seconds; it ends with
    status 0 and writes no file.  The pipelines read nothing of what it
    printed: run after any output, they leave the same requests, files and
    exit status. *)
Theorem C8_probes_are_independent_gets (w : world) :
  let done := run_script TestApiEndpoints.script w in
  sent (snd done) = sent w ++ map probe_request TestApiEndpoints.endpoints
  /\ Forall (fun r => method r = GET /\ payload r = None /\ timeout r = Some 5)
            (map probe_request TestApiEndpoints.endpoints)
  /\ fst done = 0
  /\ disk (snd done) = disk w
  /\ opened (snd done) = opened w
  /\ (forall v out, observe v (with_stdout out w) = observe v w).
Proof.
  intros done. subst done. unfold run_script.
  destruct (probing_script_run w) as [out ->].
  cbn [fst snd sent disk opened with_stdout with_sent].
  split; [reflexivity|]. split; [repeat constructor|]. repeat (split; [reflexivity|]).
  intros v out'. apply observe_blind. repeat split.
Qed.

(** C10. Every entry of [endpoints] has the method [GET], so the request
    the loop issues for it is the [requests.get] one, and no run of the
    probing script issues a POST. *)
Theorem C10_post_branch_is_never_taken :
  Forall (fun e => fst (fst e) = "GET") TestApiEndpoints.endpoints
  /\ Forall (fun e => probe_issue e = probe_request e) TestApiEndpoints.endpoints
  /\ (forall w,
        exists issued,
          sent (snd (run_script TestApiEndpoints.script w)) = sent w ++ issued /\
          Forall (fun r => method r = GET) issued).
Proof.
  split; [repeat constructor|]. split; [repeat constructor|].
  intros w. exists (map probe_issue TestApiEndpoints.endpoints).
  unfold run_script. destruct (probing_script_run w) as [out ->].
  split; [reflexivity | repeat constructor].
Qed.

(** * Further properties of the scripts *)

(** ** The outcome of a run, case by case *)

(** The exception a stage raises is never [SystemExit], so a run that a
    stage stops ends with status 1 and a traceback. *)
Lemma stopped_exception (cls msg : string) (reqs : list request) (w : world) :
  stopped (Exception cls msg) reqs w =
  {| exit_code := 1; requests := reqs; files := disk w; opens := opened w;
     tracebacks := traces w ++ [Exception cls msg] |}.
Proof. reflexivity. Qed.

Lemma app_id_hand_over (rep : reply) (id : value) :
  stage1_id rep = Some id -> app_result rep = Return id /\ truthy id = true.
Proof. apply stage1_id_result. Qed.

Lemma keyset_hand_over (rep : reply) (d : value) :
  stage2_record rep = Some d -> keyset_result rep = Return d /\ truthy d = true.
Proof.
  unfold stage2_record. destruct (keyset_result rep) as [x|e]; [|discriminate].
  destruct (truthy x) eqn:Ht; [|discriminate]. intros [= <-]. auto.
Qed.


Lemma opened_grows_ne (l : list string) (p : string) : l ++ [p] <> l.
Proof.
  intros H. apply (f_equal length) in H. rewrite length_app in H. cbn in H. lia.
Qed.

(** ** Stage 3 in each script *)

(** X1. create_pubnub_resources.py, once the application is created and
    the keyset request is answered: when both keys are there and non-empty
    (whatever JSON values they are) and the status is 200 or 201, the file
    is written with their [str()] and the status is 0; when one is missing
    or empty, nothing is written and the status is 1. *)
Theorem X1_resources_writes_iff_both_keys (w : world) (id : value) (r2 : response) :
  stage1_id (net w (sent w) app_request) = Some id ->
  net w (sent w ++ [app_request]) (keyset_request Resources id) = Reply r2 ->
  (status_ok r2 = true ->
   deny w CreateResources.env_path = None ->
   has_credential "publishKey" r2 = true ->
   has_credential "subscribeKey" r2 = true ->
   exists publish_key subscribe_key,
     body_field "publishKey" r2 = Some publish_key /\
     body_field "subscribeKey" r2 = Some subscribe_key /\
     exit_code (observe Resources w) = 0 /\
     opens (observe Resources w) = opened w ++ [CreateResources.env_path] /\
     files (observe Resources w) =
       <[CreateResources.env_path :=
           CreateResources.env_content publish_key subscribe_key]> (disk w))
  /\ (has_credential "publishKey" r2 = false \/ has_credential "subscribeKey" r2 = false ->
      exit_code (observe Resources w) = 1 /\
      opens (observe Resources w) = opened w /\
      files (observe Resources w) = disk w).
Proof.
  intros H1 Hnet. split.
  - intros Hst Hdeny Hp Hs. unfold has_credential in Hp, Hs.
    destruct (body_field "publishKey" r2) as [pk|] eqn:Epk; [|discriminate].
    destruct (body_field "subscribeKey" r2) as [sk|] eqn:Esk; [|discriminate].
    exists pk, sk. do 2 (split; [reflexivity|]).
    apply body_field_Some in Epk as (fields & Hj & Epk).
    apply body_field_Some in Esk as (fields' & Hj' & Esk).
    rewrite Hj in Hj'. injection Hj' as <-.
    rewrite (stage3_run Resources w id fields H1).
    + cbn [publish_field subscribe_field keys_accepted env_path_of env_content_of].
      rewrite (dict_get_lookup _ _ _ Epk), (dict_get_lookup _ _ _ Esk), Hp, Hs, Hdeny.
      cbn. auto.
    + rewrite Hnet. apply stage2_record_ok; [assumption..|].
      exact (dict_lookup_nonempty _ _ _ Epk).
  - intros Hkeys.
    destruct (resources_keys_required w id r2 H1 Hnet Hkeys) as (Hf & Ho & He). auto.
Qed.

Lemma X1_witness :
  (exists publish_key subscribe_key,
     body_field "publishKey" (keyset_created Resources) = Some publish_key /\
     body_field "subscribeKey" (keyset_created Resources) = Some subscribe_key /\
     exit_code (observe Resources (world_success Resources)) = 0 /\
     opens (observe Resources (world_success Resources)) = [CreateResources.env_path] /\
     files (observe Resources (world_success Resources)) =
       <[CreateResources.env_path :=
           CreateResources.env_content publish_key subscribe_key]> ∅)
  /\ (exit_code (observe Resources world_no_keys) = 1 /\
      opens (observe Resources world_no_keys) = [] /\
      files (observe Resources world_no_keys) = ∅).
Proof.
  split.
  - exact (proj1 (X1_resources_writes_iff_both_keys (world_success Resources)
                    (VStr "app_123") (keyset_created Resources) eq_refl eq_refl)
             eq_refl eq_refl eq_refl eq_refl).
  - exact (proj2 (X1_resources_writes_iff_both_keys world_no_keys
                    (VStr "app_123") keyset_without_keys eq_refl eq_refl)
             (or_introl eq_refl)).
Defined.

(** X2. setup-pubnub.py, once the application is created: any 200 or 201
    keyset response whose body is a non-empty JSON object makes the script
    write the file and exit with status 0, with [str()] of whatever the
    object holds under [publish_key] and [subscribe_key]; a key that is
    missing is written as the text [None]. *)
Theorem X2_setup_writes_whatever_the_record_holds
    (w : world) (id : value) (r2 : response) (fields : list (string * value)) :
  stage1_id (net w (sent w) app_request) = Some id ->
  net w (sent w ++ [app_request]) (keyset_request Setup id) = Reply r2 ->
  status_ok r2 = true ->
  json r2 = Decoded (VDict fields) ->
  fields <> [] ->
  deny w SetupPubnub.env_path = None ->
  exit_code (observe Setup w) = 0
  /\ files (observe Setup w) !! SetupPubnub.env_path =
       Some ("VITE_PUBNUB_PUBLISH_KEY=" +:+ py_str (dict_get "publish_key" fields) +:+ newline +:+
             "VITE_PUBNUB_SUBSCRIBE_KEY=" +:+ py_str (dict_get "subscribe_key" fields) +:+ newline)
  /\ (dict_lookup "publish_key" fields = None ->
      py_str (dict_get "publish_key" fields) = "None")
  /\ (dict_lookup "subscribe_key" fields = None ->
      py_str (dict_get "subscribe_key" fields) = "None").
Proof.
  intros H1 Hnet Hst Hj Hne Hdeny.
  rewrite (stage3_run Setup w id fields H1).
  - cbn [keys_accepted env_path_of]. rewrite Hdeny. cbn [exit_code files].
    split; [reflexivity|]. split; [apply lookup_insert_eq|].
    unfold dict_get. split; intros ->; reflexivity.
  - rewrite Hnet. apply stage2_record_ok; [assumption..|].
    destruct fields; [contradiction | reflexivity].
Qed.

Lemma X2_witness :
  exit_code (observe Setup world_no_keys) = 0
  /\ files (observe Setup world_no_keys) !! SetupPubnub.env_path =
       Some ("VITE_PUBNUB_PUBLISH_KEY=" +:+
               py_str (dict_get "publish_key" [("id", VStr "ks_1")]) +:+ newline +:+
             "VITE_PUBNUB_SUBSCRIBE_KEY=" +:+
               py_str (dict_get "subscribe_key" [("id", VStr "ks_1")]) +:+ newline)
  /\ (dict_lookup "publish_key" [("id", VStr "ks_1")] = None ->
      py_str (dict_get "publish_key" [("id", VStr "ks_1")]) = "None")
  /\ (dict_lookup "subscribe_key" [("id", VStr "ks_1")] = None ->
      py_str (dict_get "subscribe_key" [("id", VStr "ks_1")]) = "None").
Proof.
  refine (X2_setup_writes_whatever_the_record_holds world_no_keys (VStr "app_123")
            keyset_without_keys [("id", VStr "ks_1")] eq_refl eq_refl eq_refl eq_refl _ eq_refl).
  discriminate.
Defined.

(** ** The two kinds of failure *)

(** X4. A response with a status other than 200 and 201, at either stage,
    ends the run with status 1 and no traceback; its body is not decoded,
    so it need not be JSON.  Nothing is written. *)
Theorem X4_http_error_exits_without_traceback (v : variant) (w : world) :
  (forall r1,
      net w (sent w) app_request = Reply r1 ->
      status_ok r1 = false ->
      exit_code (observe v w) = 1 /\
      tracebacks (observe v w) = traces w /\
      requests (observe v w) = sent w ++ [app_request] /\
      files (observe v w) = disk w)
  /\ (forall id r2,
      stage1_id (net w (sent w) app_request) = Some id ->
      net w (sent w ++ [app_request]) (keyset_request v id) = Reply r2 ->
      status_ok r2 = false ->
      exit_code (observe v w) = 1 /\
      tracebacks (observe v w) = traces w /\
      requests (observe v w) = sent w ++ [app_request; keyset_request v id] /\
      files (observe v w) = disk w).
Proof.
  split.
  - intros r1 Hnet Hst. rewrite pipeline_observed. unfold expected.
    rewrite Hnet. unfold app_result. rewrite Hst. cbn. auto.
  - intros id r2 H1 Hnet Hst. rewrite pipeline_observed. unfold expected.
    destruct (app_id_hand_over _ _ H1) as [-> ->]. cbn [negb].
    rewrite Hnet. unfold keyset_result. rewrite Hst. cbn. auto.
Qed.

Lemma X4_witness :
  exit_code (observe Resources (fresh_world (scenario (Reply unavailable) (Reply unavailable)))) = 1 /\
  tracebacks (observe Resources (fresh_world (scenario (Reply unavailable) (Reply unavailable)))) = [] /\
  requests (observe Resources (fresh_world (scenario (Reply unavailable) (Reply unavailable))))
    = [app_request] /\
  files (observe Resources (fresh_world (scenario (Reply unavailable) (Reply unavailable)))) = ∅.
Proof.
  exact (proj1 (X4_http_error_exits_without_traceback Resources
                  (fresh_world (scenario (Reply unavailable) (Reply unavailable))))
           unavailable eq_refl eq_refl).
Defined.

(** What [v.get] raises on a value that is not a dict. *)
Lemma attr_get_not_dict (x : value) (k : string) :
  (forall fields, x <> VDict fields) ->
  attr_get x k =
  Raise (Exception "AttributeError" ("'" +:+ type_name x +:+ "' object has no attribute 'get'")).
Proof. intros H. destruct x; try reflexivity. destruct (H fields eq_refl). Qed.

(** X5. A 200 or 201 response whose body is not a JSON object ends the
    run with a traceback and status 1, at either stage, and nothing is
    written: a body that is not JSON raises the decoding error of
    [response.json()], a JSON value that is not an object (a list, a
    string, a number, [null]) raises the [AttributeError] of [.get]. *)
Theorem X5_malformed_success_body_raises (v : variant) (w : world) :
  (forall r1,
      net w (sent w) app_request = Reply r1 ->
      status_ok r1 = true ->
      forall e,
        (exists msg, json r1 = Undecodable msg /\ e = Exception "JSONDecodeError" msg) \/
        (exists x, json r1 = Decoded x /\ (forall fields, x <> VDict fields) /\
                   e = Exception "AttributeError"
                         ("'" +:+ type_name x +:+ "' object has no attribute 'get'")) ->
        exit_code (observe v w) = 1 /\
        tracebacks (observe v w) = traces w ++ [e] /\
        requests (observe v w) = sent w ++ [app_request] /\
        files (observe v w) = disk w)
  /\ (forall id r2,
      stage1_id (net w (sent w) app_request) = Some id ->
      net w (sent w ++ [app_request]) (keyset_request v id) = Reply r2 ->
      status_ok r2 = true ->
      forall e,
        (exists msg, json r2 = Undecodable msg /\ e = Exception "JSONDecodeError" msg) \/
        (exists x, json r2 = Decoded x /\ (forall fields, x <> VDict fields) /\
                   e = Exception "AttributeError"
                         ("'" +:+ type_name x +:+ "' object has no attribute 'get'")) ->
        exit_code (observe v w) = 1 /\
        tracebacks (observe v w) = traces w ++ [e] /\
        requests (observe v w) = sent w ++ [app_request; keyset_request v id] /\
        files (observe v w) = disk w).
Proof.
  split.
  - intros r1 Hnet Hst e He. rewrite pipeline_observed. unfold expected.
    rewrite Hnet. unfold app_result, decode. rewrite Hst.
    destruct He as [(msg & -> & ->) | (x & -> & Hx & ->)].
    + cbn. auto.
    + rewrite (attr_get_not_dict x "id" Hx). cbn. auto.
  - intros id r2 H1 Hnet Hst e He. rewrite pipeline_observed. unfold expected.
    destruct (app_id_hand_over _ _ H1) as [-> ->]. cbn [negb].
    rewrite Hnet. unfold keyset_result, decode. rewrite Hst.
    destruct He as [(msg & -> & ->) | (x & -> & Hx & ->)].
    + cbn. auto.
    + rewrite (attr_get_not_dict x "id" Hx). cbn. auto.
Qed.

Lemma X5_witness :
  (exit_code (observe Setup (fresh_world (scenario (Reply html_page) (Reply html_page)))) = 1 /\
   tracebacks (observe Setup (fresh_world (scenario (Reply html_page) (Reply html_page))))
     = [Exception "JSONDecodeError" "Expecting value: line 1 column 1 (char 0)"] /\
   requests (observe Setup (fresh_world (scenario (Reply html_page) (Reply html_page))))
     = [app_request] /\
   files (observe Setup (fresh_world (scenario (Reply html_page) (Reply html_page)))) = ∅)
  /\ (exit_code (observe Resources
                   (fresh_world (scenario (Reply app_123_created) (Reply json_list)))) = 1 /\
      tracebacks (observe Resources
                    (fresh_world (scenario (Reply app_123_created) (Reply json_list))))
        = [Exception "AttributeError" "'list' object has no attribute 'get'"] /\
      requests (observe Resources
                  (fresh_world (scenario (Reply app_123_created) (Reply json_list))))
        = [app_request; keyset_request Resources (VStr "app_123")] /\
      files (observe Resources
               (fresh_world (scenario (Reply app_123_created) (Reply json_list)))) = ∅).
Proof.
  split.
  - refine (proj1 (X5_malformed_success_body_raises Setup
                     (fresh_world (scenario (Reply html_page) (Reply html_page))))
              html_page eq_refl eq_refl _ _).
    left. eexists. split; reflexivity.
  - refine (proj2 (X5_malformed_success_body_raises Resources
                     (fresh_world (scenario (Reply app_123_created) (Reply json_list))))
              (VStr "app_123") json_list eq_refl eq_refl eq_refl _ _).
    right. exists (VList []). split; [reflexivity|]. split; [discriminate | reflexivity].
Defined.

(** X6. When the credentials file cannot be opened, the run ends with the
    [OSError] traceback and status 1 and the disk as it was; by then both
    requests have been issued, and none follows to undo them. *)
Theorem X6_refused_write_aborts_after_both_requests
    (v : variant) (w : world) (id : value) (fields : list (string * value)) (msg : string) :
  stage1_id (net w (sent w) app_request) = Some id ->
  stage2_record (net w (sent w ++ [app_request]) (keyset_request v id)) = Some (VDict fields) ->
  keys_accepted v (dict_get (publish_field v) fields)
                  (dict_get (subscribe_field v) fields) = true ->
  deny w (env_path_of v) = Some msg ->
  exit_code (observe v w) = 1 /\
  tracebacks (observe v w) = traces w ++ [Exception "OSError" msg] /\
  files (observe v w) = disk w /\
  opens (observe v w) = opened w /\
  requests (observe v w) = sent w ++ [app_request; keyset_request v id].
Proof.
  intros H1 H2 Hkeys Hdeny.
  rewrite (stage3_run v w id fields H1 H2). cbv zeta. rewrite Hkeys, Hdeny. cbn. auto.
Qed.

Lemma X6_witness :
  exit_code (observe Setup (world_read_only Setup)) = 1 /\
  tracebacks (observe Setup (world_read_only Setup))
    = [Exception "OSError" "[Errno 13] Permission denied"] /\
  files (observe Setup (world_read_only Setup)) = ∅ /\
  opens (observe Setup (world_read_only Setup)) = [] /\
  requests (observe Setup (world_read_only Setup))
    = [app_request; keyset_request Setup (VStr "app_123")].
Proof.
  exact (X6_refused_write_aborts_after_both_requests Setup (world_read_only Setup)
           (VStr "app_123")
           [("publish_key", VStr "pub_abc"); ("subscribe_key", VStr "sub_xyz")]
           "[Errno 13] Permission denied" eq_refl eq_refl eq_refl eq_refl).
Defined.

(** ** What a run asks of the platform *)

(** X7. Whatever the platform replies, a run issues the application
    request and after it at most one request more; each is a POST with the
    two fixed headers, a JSON body and no timeout.  No run issues a GET or
    a request that would delete what it created. *)
Theorem X7_requests_of_a_run (v : variant) (w : world) :
  exists issued,
    requests (observe v w) = sent w ++ app_request :: issued /\
    (length issued <= 1)%nat /\
    Forall (fun r => method r = POST /\ req_headers r = auth_headers /\
                     timeout r = None /\ is_Some (payload r))
           (app_request :: issued).
Proof.
  destruct (stage1_id (net w (sent w) app_request)) as [id|] eqn:E.
  - exists [keyset_request v id]. split; [exact (stage1_some_run v w id E)|].
    split; [cbn; lia|].
    repeat constructor; destruct v; cbn; eauto.
  - destruct (stage1_none_run v w E) as (_ & Hreqs & _).
    exists []. split; [exact Hreqs|]. split; [cbn; lia|].
    repeat constructor; cbn; eauto.
Qed.

(** X8. A run does not look at the disk: started on any other disk, it
    issues the same requests and ends with the same status, tracebacks
    and file opened. *)
Theorem X8_run_does_not_read_the_disk (v : variant) (w : world) (d : gmap string string) :
  exit_code (observe v (with_disk d w)) = exit_code (observe v w) /\
  requests (observe v (with_disk d w)) = requests (observe v w) /\
  opens (observe v (with_disk d w)) = opens (observe v w) /\
  tracebacks (observe v (with_disk d w)) = tracebacks (observe v w).
Proof.
  rewrite !pipeline_observed. unfold expected, stopped.
  cbn [net sent deny disk opened traces with_disk].
  repeat match goal with
         | |- context [match ?x with _ => _ end] => destruct x
         end; repeat split; reflexivity.
Qed.

(** ** Running a pipeline twice *)

Section Keeps.
Context {A B : Type}.

Lemma keeps_lift (o : outcome A) : keeps_platform (lift o).
Proof. intros w. split; reflexivity. Qed.

Lemma keeps_ret (a : A) : keeps_platform (ret a).
Proof. exact (keeps_lift (Return a)). Qed.

Lemma keeps_raise (e : exn) : keeps_platform (@raise A e).
Proof. exact (keeps_lift (Raise e)). Qed.

Lemma keeps_bind (c : py A) (k : A -> py B) :
  keeps_platform c -> (forall a, keeps_platform (k a)) -> keeps_platform (bind c k).
Proof.
  intros Hc Hk w. unfold bind. destruct (Hc w) as [Hn Hd].
  destruct (c w) as [[a|e] w']; cbn [snd] in *.
  - destruct (Hk a w') as [Hn' Hd']. split; congruence.
  - split; assumption.
Qed.

Lemma keeps_try_except (c : py A) (h : string -> string -> py A) :
  keeps_platform c -> (forall cls msg, keeps_platform (h cls msg)) ->
  keeps_platform (try_except c h).
Proof.
  intros Hc Hh w. unfold try_except. destruct (Hc w) as [Hn Hd].
  destruct (c w) as [[a|[code|cls msg]] w']; cbn [snd] in *; try (split; assumption).
  destruct (Hh cls msg w') as [Hn' Hd']. split; congruence.
Qed.
End Keeps.

Lemma keeps_print (s : string) : keeps_platform (print s).
Proof. intros w. split; reflexivity. Qed.

Lemma keeps_traceback (e : exn) : keeps_platform (traceback_print_exc e).
Proof. intros w. split; reflexivity. Qed.

Lemma keeps_issue (r : request) : keeps_platform (issue r).
Proof. intros w. unfold issue. destruct (net w (sent w) r); split; reflexivity. Qed.

Lemma keeps_write_file (path content : string) : keeps_platform (write_file path content).
Proof.
  intros w. rewrite write_file_run. destruct (deny w path); split; reflexivity.
Qed.

Ltac keeps_step :=
  lazymatch goal with
  | |- keeps_platform (bind _ _) => apply keeps_bind; [|intro]
  | |- keeps_platform (print _) => apply keeps_print
  | |- keeps_platform (ret _) => apply keeps_ret
  | |- keeps_platform (raise _) => apply keeps_raise
  | |- keeps_platform (sys_exit _) => apply keeps_raise
  | |- keeps_platform (lift _) => apply keeps_lift
  | |- keeps_platform (response_json _) => apply keeps_lift
  | |- keeps_platform (get _ _) => apply keeps_lift
  | |- keeps_platform (issue _) => apply keeps_issue
  | |- keeps_platform (requests_post _ _ _ _) => apply keeps_issue
  | |- keeps_platform (requests_get _ _ _) => apply keeps_issue
  | |- keeps_platform (write_file _ _) => apply keeps_write_file
  | |- keeps_platform (traceback_print_exc _) => apply keeps_traceback
  | |- keeps_platform (try_except _ _) => apply keeps_try_except; [|intros ? ?]
  | |- keeps_platform (if ?b then _ else _) => destruct b
  | |- keeps_platform (let x := _ in _) => cbv zeta
  | |- keeps_platform ((fun x => _) _) => cbv beta
  end.

Lemma keeps_script (v : variant) : keeps_platform (script_of v).
Proof.
  destruct v; cbv [script_of].
  - unfold CreateResources.script, CreateResources.main, CreateResources.create_app,
      CreateResources.create_keyset, CreateResources.create_env_file.
    repeat keeps_step.
  - unfold SetupPubnub.script, SetupPubnub.main, SetupPubnub.create_app,
      SetupPubnub.create_keyset, SetupPubnub.save_env_file.
    repeat keeps_step.
Qed.

(** The world after a run: the same platform and permissions, and the
    requests and files that [observe] shows. *)
Lemma after_run (v : variant) (w : world) :
  net (after v w) = net w /\ deny (after v w) = deny w /\
  sent (after v w) = requests (observe v w) /\
  disk (after v w) = files (observe v w) /\
  opened (after v w) = opens (observe v w).
Proof.
  unfold after, observe, run_script. destruct (keeps_script v w) as [Hn Hd].
  destruct (script_of v w) as [[[]|[code|cls msg]] w']; cbn in *; auto.
Qed.

(** X9. The scripts keep no record of an earlier run.  Run a second time
    on the machine the first run left, with both runs succeeding, a
    pipeline issues the application and keyset requests again (four
    requests in all, the second keyset scoped to the second identifier),
    and the file holds the keys of the second run only. *)
Theorem X9_second_run_creates_again
    (v : variant) (w : world) (id1 id2 : value) (fields1 fields2 : list (string * value)) :
  stage1_id (net w (sent w) app_request) = Some id1 ->
  stage2_record (net w (sent w ++ [app_request]) (keyset_request v id1))
    = Some (VDict fields1) ->
  keys_accepted v (dict_get (publish_field v) fields1)
                  (dict_get (subscribe_field v) fields1) = true ->
  deny w (env_path_of v) = None ->
  stage1_id (net w (sent w ++ [app_request; keyset_request v id1]) app_request) = Some id2 ->
  stage2_record (net w (sent w ++ [app_request; keyset_request v id1; app_request])
                   (keyset_request v id2))
    = Some (VDict fields2) ->
  keys_accepted v (dict_get (publish_field v) fields2)
                  (dict_get (subscribe_field v) fields2) = true ->
  exit_code (observe v (after v w)) = 0 /\
  requests (observe v (after v w)) =
    sent w ++ [app_request; keyset_request v id1; app_request; keyset_request v id2] /\
  files (observe v (after v w)) =
    <[env_path_of v := env_content_of v (dict_get (publish_field v) fields2)
                                        (dict_get (subscribe_field v) fields2)]> (disk w) /\
  opens (observe v (after v w)) = opened w ++ [env_path_of v; env_path_of v].
Proof.
  intros H1 H2 Hk1 Hdeny H3 H4 Hk2.
  destruct (after_run v w) as (Hn & Hd & Hs & Hdk & Ho).
  rewrite (stage3_run v w id1 fields1 H1 H2) in Hs, Hdk, Ho.
  cbv zeta in Hs, Hdk, Ho. rewrite Hk1, Hdeny in Hs, Hdk, Ho.
  cbn [requests files opens] in Hs, Hdk, Ho.
  rewrite (stage3_run v (after v w) id2 fields2).
  - cbv zeta. rewrite Hk2, Hd, Hdeny, Hs, Hdk, Ho. cbn [exit_code requests files opens].
    rewrite insert_insert_eq, <- !app_assoc. auto.
  - rewrite Hn, Hs. exact H3.
  - rewrite Hn, Hs, <- app_assoc. exact H4.
Qed.

Lemma X9_witness :
  exit_code (observe Setup (after Setup (world_creating Setup))) = 0 /\
  requests (observe Setup (after Setup (world_creating Setup))) =
    [app_request; keyset_request Setup (VStr "app_123");
     app_request; keyset_request Setup (VStr "app_456")] /\
  files (observe Setup (after Setup (world_creating Setup))) =
    <[SetupPubnub.env_path := SetupPubnub.env_content (VStr "pub_abc") (VStr "sub_xyz")]> ∅ /\
  opens (observe Setup (after Setup (world_creating Setup))) =
    [SetupPubnub.env_path; SetupPubnub.env_path].
Proof.
  exact (X9_second_run_creates_again Setup (world_creating Setup)
           (VStr "app_123") (VStr "app_456")
           [("publish_key", VStr "pub_abc"); ("subscribe_key", VStr "sub_xyz")]
           [("publish_key", VStr "pub_abc"); ("subscribe_key", VStr "sub_xyz")]
           eq_refl eq_refl eq_refl eq_refl eq_refl eq_refl eq_refl).
Defined.

(** ** The probing loop on any list *)

(** X10. The loop of the probing script, on any list of entries: it never
    raises, it issues one request per entry, in order, whatever the
    replies and transport exceptions, and it touches neither the disk nor
    the tracebacks.  The request of an entry goes to its URL with the fixed
    headers, no body and a timeout of 5 seconds; it is a GET when the
    method text is [GET] and a POST for any other text. *)
Theorem X10_probe_loop_on_any_list (l : list (string * string * string)) (w : world) :
  fst (TestApiEndpoints.for_each l w) = Return tt /\
  sent (snd (TestApiEndpoints.for_each l w)) = sent w ++ map probe_issue l /\
  disk (snd (TestApiEndpoints.for_each l w)) = disk w /\
  opened (snd (TestApiEndpoints.for_each l w)) = opened w /\
  traces (snd (TestApiEndpoints.for_each l w)) = traces w /\
  Forall (fun e =>
            url (probe_issue e) = snd (fst e) /\
            req_headers (probe_issue e) = auth_headers /\
            payload (probe_issue e) = None /\
            timeout (probe_issue e) = Some 5 /\
            (fst (fst e) = "GET" -> method (probe_issue e) = GET) /\
            (fst (fst e) <> "GET" -> method (probe_issue e) = POST)) l.
Proof.
  destruct (for_each_run l w) as [out ->].
  cbn [fst snd sent disk opened traces with_stdout with_sent].
  repeat (split; [reflexivity|]).
  apply Forall_forall. intros [[m u] d] _. unfold probe_issue, probe_request. cbn [fst snd].
  destruct (String.eqb_spec m "GET") as [->|Hne]; cbn; repeat split; congruence.
Qed.

(** ** The lines of the file, for any keys *)

Lemma count_lf_app (a b : string) : count_lf (a +:+ b) = (count_lf a + count_lf b)%nat.
Proof.
  induction a as [|c a IH]; [reflexivity|].
  change (String c a +:+ b) with (String c (a +:+ b)). cbn [count_lf].
  destruct (Ascii.eqb c "010"); rewrite IH; reflexivity.
Qed.

(** Each line feed of [a] ends a line, and so does the one after it. *)
Lemma file_lines_from_count (line a rest : string) :
  length (file_lines_from line (a +:+ newline +:+ rest)) =
  (count_lf a + 1 + length (file_lines_from "" rest))%nat.
Proof.
  revert line. induction a as [|c a IH]; intros line.
  - reflexivity.
  - change (String c a +:+ newline +:+ rest) with (String c (a +:+ newline +:+ rest)).
    cbn [file_lines_from count_lf].
    destruct (Ascii.eqb c "010"); cbn [length]; rewrite IH; lia.
Qed.

(** X11. The keys are written as they are, without escaping: the file
    that stage 3 writes for the keys [P] and [S] has as many lines as its
    header (three in create_pubnub_resources.py, none in setup-pubnub.py),
    plus two, plus one for every line feed in [P] and in [S]. *)
Theorem X11_lines_of_the_written_file (v : variant) (P S : string) :
  length (file_lines (env_content_of v (VStr P) (VStr S))) =
  (length (env_header_lines v) + 2 + count_lf P + count_lf S)%nat.
Proof.
  assert (forall line,
             length (file_lines_from line
                       ("VITE_PUBNUB_PUBLISH_KEY=" +:+ P +:+ newline +:+
                        "VITE_PUBNUB_SUBSCRIBE_KEY=" +:+ S +:+ newline))
             = (2 + count_lf P + count_lf S)%nat) as Hkeys.
  { intros line.
    rewrite <- (str_app_assoc "VITE_PUBNUB_PUBLISH_KEY=" P), file_lines_from_count.
    rewrite <- (str_app_nil_r newline) at 1.
    rewrite <- (str_app_assoc "VITE_PUBNUB_SUBSCRIBE_KEY=" S), file_lines_from_count.
    rewrite !count_lf_app. cbn. lia. }
  destruct v; unfold file_lines, env_content_of.
  - unfold CreateResources.env_content. cbn [py_str env_header_lines length].
    rewrite (file_lines_from_count "" "# PubNub Configuration for Swap It!").
    rewrite (file_lines_from_count "" "# Generated automatically").
    rewrite file_lines_from_newline. cbn [length]. rewrite Hkeys. cbn. lia.
  - unfold SetupPubnub.env_content. cbn [py_str env_header_lines length].
    rewrite Hkeys. lia.
Qed.

(** ** What is printed *)

Section Grows.
Context {A B : Type}.

Lemma grows_lift (o : outcome A) : grows (lift o).
Proof. intros w. exists []. cbn. rewrite app_nil_r. reflexivity. Qed.

Lemma grows_ret (a : A) : grows (ret a).
Proof. exact (grows_lift (Return a)). Qed.

Lemma grows_raise (e : exn) : grows (@raise A e).
Proof. exact (grows_lift (Raise e)). Qed.

Lemma grows_bind (c : py A) (k : A -> py B) :
  grows c -> (forall a, grows (k a)) -> grows (bind c k).
Proof.
  intros Hc Hk w. unfold bind. destruct (Hc w) as [out Hout].
  destruct (c w) as [[a|e] w']; cbn [snd] in *.
  - destruct (Hk a w') as [out' Hout']. exists (out ++ out').
    rewrite Hout', Hout, app_assoc. reflexivity.
  - exists out. exact Hout.
Qed.

Lemma grows_try_except (c : py A) (h : string -> string -> py A) :
  grows c -> (forall cls msg, grows (h cls msg)) -> grows (try_except c h).
Proof.
  intros Hc Hh w. unfold try_except. destruct (Hc w) as [out Hout].
  destruct (c w) as [[a|[code|cls msg]] w']; cbn [snd] in *; try (exists out; exact Hout).
  destruct (Hh cls msg w') as [out' Hout']. exists (out ++ out').
  rewrite Hout', Hout, app_assoc. reflexivity.
Qed.
End Grows.

Lemma grows_print (s : string) : grows (print s).
Proof. intros w. exists [s]. reflexivity. Qed.

Lemma grows_traceback (e : exn) : grows (traceback_print_exc e).
Proof. intros w. exists []. cbn. rewrite app_nil_r. reflexivity. Qed.

Lemma grows_issue (r : request) : grows (issue r).
Proof.
  intros w. exists []. unfold issue.
  destruct (net w (sent w) r); cbn; rewrite app_nil_r; reflexivity.
Qed.

Lemma grows_write_file (path content : string) : grows (write_file path content).
Proof.
  intros w. exists []. rewrite write_file_run.
  destruct (deny w path); cbn; rewrite app_nil_r; reflexivity.
Qed.

Ltac grows_step :=
  lazymatch goal with
  | |- grows (bind _ _) => apply grows_bind; [|intro]
  | |- grows (print _) => apply grows_print
  | |- grows (ret _) => apply grows_ret
  | |- grows (raise _) => apply grows_raise
  | |- grows (sys_exit _) => apply grows_raise
  | |- grows (lift _) => apply grows_lift
  | |- grows (response_json _) => apply grows_lift
  | |- grows (get _ _) => apply grows_lift
  | |- grows (issue _) => apply grows_issue
  | |- grows (requests_post _ _ _ _) => apply grows_issue
  | |- grows (requests_get _ _ _) => apply grows_issue
  | |- grows (write_file _ _) => apply grows_write_file
  | |- grows (traceback_print_exc _) => apply grows_traceback
  | |- grows (try_except _ _) => apply grows_try_except; [|intros ? ?]
  | |- grows (if ?b then _ else _) => destruct b
  | |- grows (let x := _ in _) => cbv zeta
  | |- grows ((fun x => _) _) => cbv beta
  end.

(** What stands on standard output stays there. *)
Lemma grows_keeps_line {A : Type} (c : py A) (w : world) (line : string) :
  grows c -> line ∈ stdout w -> line ∈ stdout (snd (c w)).
Proof.
  intros Hc Hin. destruct (Hc w) as [out ->]. apply elem_of_app. left. exact Hin.
Qed.

Lemma bind_return {A B : Type} (c : py A) (k : A -> py B) (w w' : world) (a : A) :
  c w = (Return a, w') -> bind c k w = k a w'.
Proof. intros H. unfold bind. rewrite H. reflexivity. Qed.

(** [create_keyset], on a 200 or 201 response whose body is a JSON
    object: it returns the object, having printed its two keys. *)
Lemma create_keyset_echo (v : variant) (id : value) (w : world) (r2 : response)
    (fields : list (string * value)) :
  net w (sent w) (keyset_request v id) = Reply r2 ->
  status_ok r2 = true ->
  json r2 = Decoded (VDict fields) ->
  exists w',
    create_keyset_of v id (keyset_name v) w = (Return (VDict fields), w') /\
    echoed_publish_key v fields ∈ stdout w' /\
    echoed_subscribe_key v fields ∈ stdout w'.
Proof.
  intros Hnet Hst Hj. destruct w, v; py_eval; cbv [keyset_request keyset_name] in Hnet;
    cbn [net sent] in Hnet; rewrite Hnet; py_eval; rewrite Hst; py_eval; rewrite Hj;
    eexists; (split; [reflexivity|]);
    cbn [stdout echoed_publish_key echoed_subscribe_key];
    rewrite !elem_of_app, !list_elem_of_singleton; auto 10.
Qed.

(** The process around [main] erases nothing of what [main] printed. *)
Lemma after_keeps_line (v : variant) (w : world) (line : string) :
  line ∈ stdout (snd (main_of v w)) -> line ∈ stdout (after v w).
Proof.
  unfold after, run_script. destruct v; cbn [script_of main_of].
  - unfold CreateResources.script, try_except.
    destruct (CreateResources.main w) as [[[]|[code|cls msg]] w']; cbn [snd]; intros Hin;
      try exact Hin.
    cbv [bind print traceback_print_exc sys_exit raise]. cbn.
    apply elem_of_app. left. exact Hin.
  - unfold SetupPubnub.script.
    destruct (SetupPubnub.main w) as [[[]|[code|cls msg]] w']; cbn; intros Hin; exact Hin.
Qed.

(** X12. [create_keyset] prints the two keys of any 200 or 201 response
    whose body is a JSON object, in clear, and nothing erases them: once
    the application is created and such a keyset response has come, the
    two lines stand on standard output when the process ends, whatever
    stage 3 does. *)
Theorem X12_keys_are_printed_in_clear
    (v : variant) (w : world) (id : value) (r2 : response) (fields : list (string * value)) :
  stage1_id (net w (sent w) app_request) = Some id ->
  net w (sent w ++ [app_request]) (keyset_request v id) = Reply r2 ->
  status_ok r2 = true ->
  json r2 = Decoded (VDict fields) ->
  echoed_publish_key v fields ∈ stdout (after v w) /\
  echoed_subscribe_key v fields ∈ stdout (after v w).
Proof.
  intros H1 Hnet Hst Hj.
  destruct (app_id_hand_over _ _ H1) as [Happ Ht].
  assert (exists w2,
             echoed_publish_key v fields ∈ stdout w2 /\
             echoed_subscribe_key v fields ∈ stdout w2 /\
             exists k : py unit, grows k /\ main_of v w = k w2) as (w2 & Hp & Hs & k & Hk & Hmain).
  { destruct v; cbn [main_of].
    - unfold CreateResources.main.
      do 4 (erewrite bind_return by reflexivity).
      match goal with
      | |- context [bind (CreateResources.create_app ?name) _ ?w0] =>
          destruct (create_app_run Resources name w0) as [out E]
      end.
      cbn [create_app_of net sent with_stdout] in E. fold app_request in E.
      rewrite Happ in E. erewrite bind_return by exact E.
      rewrite Ht. cbn [negb]. erewrite bind_return by reflexivity.
      match goal with
      | |- context [bind (CreateResources.create_keyset id _) _ ?w1] =>
          destruct (create_keyset_echo Resources id w1 r2 fields) as (w2 & E2 & Hp & Hs);
            [exact Hnet | exact Hst | exact Hj |]
      end.
      cbn [create_keyset_of keyset_name] in E2. erewrite bind_return by exact E2.
      exists w2. split; [exact Hp|]. split; [exact Hs|].
      eexists. split; [|reflexivity].
      unfold CreateResources.create_env_file. repeat grows_step.
    - unfold SetupPubnub.main.
      destruct (create_app_run Setup "Swap It Game" w) as [out E].
      cbn [create_app_of] in E. fold app_request in E.
      rewrite Happ in E. erewrite bind_return by exact E.
      rewrite Ht. cbn [negb]. erewrite bind_return by reflexivity.
      match goal with
      | |- context [bind (SetupPubnub.create_keyset id _) _ ?w1] =>
          destruct (create_keyset_echo Setup id w1 r2 fields) as (w2 & E2 & Hp & Hs);
            [exact Hnet | exact Hst | exact Hj |]
      end.
      cbn [create_keyset_of keyset_name] in E2. erewrite bind_return by exact E2.
      exists w2. split; [exact Hp|]. split; [exact Hs|].
      eexists. split; [|reflexivity].
      unfold SetupPubnub.save_env_file. repeat grows_step. }
  split; apply after_keeps_line; rewrite Hmain; apply grows_keeps_line; assumption.
Qed.

Lemma X12_witness :
  (newline +:+ "Publish Key: pub_abc") ∈ stdout (after Setup (world_read_only Setup)) /\
  "Subscribe Key: sub_xyz" ∈ stdout (after Setup (world_read_only Setup)).
Proof.
  exact (X12_keys_are_printed_in_clear Setup (world_read_only Setup) (VStr "app_123")
           (keyset_created Setup)
           [("publish_key", VStr "pub_abc"); ("subscribe_key", VStr "sub_xyz")]
           eq_refl eq_refl eq_refl eq_refl).
Defined.

(** [s[:n]] is the text [s] cut after [n] characters, or [s] when it is
    shorter. *)
Lemma str_prefix_spec (n : nat) (s : string) :
  String.length (str_prefix n s) = Nat.min n (String.length s) /\
  exists rest, s = str_prefix n s +:+ rest.
Proof.
  unfold str_prefix. revert s. induction n as [|n IH]; intros s.
  - destruct s; (split; [reflexivity|]); eexists; reflexivity.
  - destruct s as [|c s]; [split; [reflexivity | exists ""; reflexivity]|].
    destruct (IH s) as [Hlen [rest Hrest]].
    change (String.substring 0 (S n) (String c s)) with (String c (String.substring 0 n s)).
    split; [cbn; rewrite Hlen; reflexivity|].
    exists rest. change (String c (String.substring 0 n s) +:+ rest)
      with (String c (String.substring 0 n s +:+ rest)).
    rewrite <- Hrest. reflexivity.
Qed.

Lemma lookup_after (l : list string) (a b c : string) (rest : list string) :
  (l ++ a :: b :: c :: rest) !! (length l + 2)%nat = Some c.
Proof.
  rewrite lookup_app_r by lia.
  replace (length l + 2 - length l)%nat with 2%nat by lia. reflexivity.
Qed.

Lemma lookup_after3 (l : list string) (a b c d : string) (rest : list string) :
  (l ++ a :: b :: c :: d :: rest) !! (length l + 3)%nat = Some d.
Proof.
  rewrite lookup_app_r by lia.
  replace (length l + 3 - length l)%nat with 3%nat by lia. reflexivity.
Qed.

(** X13. The body of a response is printed cut: [create_keyset] of
    create_pubnub_resources.py prints, as its third line and whatever the
    status, the first 500 characters of the body (the whole body when it
    is shorter) followed by three dots; a turn of the probing loop prints,
    as its fourth line, the first 200 characters of the body. *)
Theorem X13_printed_body_is_cut (id : value) (m u d : string) (w : world) :
  (forall r,
      net w (sent w) (keyset_request Resources id) = Reply r ->
      exists shown rest,
        stdout (snd (CreateResources.create_keyset id (keyset_name Resources) w))
          !! (length (stdout w) + 2)%nat = Some ("Response: " +:+ shown +:+ "...") /\
        text r = shown +:+ rest /\
        String.length shown = Nat.min 500 (String.length (text r)))
  /\ (forall r,
      net w (sent w) (probe_issue (m, u, d)) = Reply r ->
      exists shown rest,
        stdout (snd (TestApiEndpoints.probe m u d w))
          !! (length (stdout w) + 3)%nat = Some ("Response: " +:+ shown) /\
        text r = shown +:+ rest /\
        String.length shown = Nat.min 200 (String.length (text r))).
Proof.
  split; intros r Hnet.
  - destruct (str_prefix_spec 500 (text r)) as [Hlen [rest Hrest]].
    exists (str_prefix 500 (text r)), rest. split; [|split; assumption].
    destruct w as [n dn s dk op so tr].
    cbv [keyset_request keyset_name] in Hnet. cbn [net sent] in Hnet.
    py_eval. rewrite Hnet. py_cases; cbn [stdout length];
      rewrite <- !app_assoc; cbn [app]; apply lookup_after.
  - destruct (str_prefix_spec 200 (text r)) as [Hlen [rest Hrest]].
    exists (str_prefix 200 (text r)), rest. split; [|split; assumption].
    destruct w as [n dn s dk op so tr].
    cbv [probe_issue probe_request fst snd] in Hnet. cbn [net sent] in Hnet.
    cbv [TestApiEndpoints.probe bind print try_except
         requests_get requests_post issue fst snd
         net deny sent disk opened stdout traces
         with_sent with_disk with_opened with_stdout with_traces].
    destruct (String.eqb m "GET"); rewrite Hnet; cbn [stdout];
      rewrite <- !app_assoc; cbn [app]; apply lookup_after3.
Qed.

Lemma X13_witness :
  (exists shown rest,
      stdout (snd (CreateResources.create_keyset (VStr "app_123") (keyset_name Resources)
                     (fresh_world (scenario (Reply unavailable) (Reply unavailable)))))
        !! (0 + 2)%nat = Some ("Response: " +:+ shown +:+ "...") /\
      text unavailable = shown +:+ rest /\
      String.length shown = Nat.min 500 (String.length (text unavailable)))
  /\ (exists shown rest,
      stdout (snd (TestApiEndpoints.probe "GET" "https://ps.pndsn.com/v2/apps" "List apps v2"
                     (fresh_world (scenario (Reply unavailable) (Reply unavailable)))))
        !! (0 + 3)%nat = Some ("Response: " +:+ shown) /\
      text unavailable = shown +:+ rest /\
      String.length shown = Nat.min 200 (String.length (text unavailable))).
Proof.
  split.
  - exact (proj1 (X13_printed_body_is_cut (VStr "app_123") "GET"
                    "https://ps.pndsn.com/v2/apps" "List apps v2"
                    (fresh_world (scenario (Reply unavailable) (Reply unavailable))))
             unavailable eq_refl).
  - exact (proj2 (X13_printed_body_is_cut (VStr "app_123") "GET"
                    "https://ps.pndsn.com/v2/apps" "List apps v2"
                    (fresh_world (scenario (Reply unavailable) (Reply unavailable))))
             unavailable eq_refl).
Defined.
